(** * Spatial data platform: resource-oriented and graph-query front ends

    A shallow embedding of the Python sources
      - app/crud.py, app/main.py, app/models.py          (resource surface)
      - graphql_app/crud.py, graphql_app/schema.py,
        graphql_app/schemas.py                            (graph surface)
    Python values that travel as GeoJSON are a small inductive type that
    keeps the tuple/list distinction; the SQLAlchemy session is an explicit
    state (committed rows, unit of work, statement log) threaded through a
    state-and-exception monad; the libraries the sources call (shapely,
    geoalchemy2, jose, passlib, json, PostGIS) are given idealised models. *)

From Stdlib Require Import ZArith QArith Lia.
From stdpp Require Import base strings list gmap.

Set Warnings "-register-all".

Local Open Scope Z_scope.
Local Open Scope string_scope.
Local Open Scope list_scope.

(** ** Python objects *)

Module py.

(** The values [json.loads], [shapely.geometry.mapping] and the schema
    layer exchange.  Numbers are exact rationals standing for the floats. *)
Inductive pyval : Type :=
| PyNone
| PyBool (b : bool)
| PyNum (q : Q)
| PyStr (s : string)
| PyTuple (items : list pyval)
| PyList (items : list pyval)
| PyDict (items : list (string * pyval)).

(** [d.get(key)] on the items of a dict. *)
Fixpoint dict_get (key : string) (items : list (string * pyval)) : option pyval :=
  match items with
  | [] => None
  | (k, v) :: rest => if String.eqb k key then Some v else dict_get key rest
  end.

(** [obj.get(key)]: [None] of the option is the AttributeError of a
    non-dict; a missing key gives Python's [None]. *)
Definition get (obj : pyval) (key : string) : option pyval :=
  match obj with
  | PyDict items => Some (default PyNone (dict_get key items))
  | _ => None
  end.

Definition num_of_bool (b : bool) : Q := if b then 1%Q else 0%Q.

(** Python's [==] on these values: numbers by value, sequences
    element-wise and never across the tuple/list divide, dicts key by key
    whatever the insertion order. *)
Fixpoint equals (a b : pyval) {struct a} : bool :=
  let fix eq_items (xs ys : list pyval) {struct xs} : bool :=
    match xs, ys with
    | [], [] => true
    | x :: xs', y :: ys' => equals x y && eq_items xs' ys'
    | _, _ => false
    end in
  let fix eq_entries (xs : list (string * pyval)) (ys : list (string * pyval))
      {struct xs} : bool :=
    match xs with
    | [] => true
    | (k, v) :: xs' =>
        match dict_get k ys with
        | Some w => equals v w && eq_entries xs' ys
        | None => false
        end
    end in
  match a, b with
  | PyNone, PyNone => true
  | PyBool x, PyBool y => Bool.eqb x y
  | PyBool x, PyNum y => Qeq_bool (num_of_bool x) y
  | PyNum x, PyBool y => Qeq_bool x (num_of_bool y)
  | PyNum x, PyNum y => Qeq_bool x y
  | PyStr x, PyStr y => String.eqb x y
  | PyTuple xs, PyTuple ys => eq_items xs ys
  | PyList xs, PyList ys => eq_items xs ys
  | PyDict xs, PyDict ys =>
      (length xs =? length ys)%nat && eq_entries xs ys
  | _, _ => false
  end.

(** [isinstance(v, list)] *)
Definition is_list (v : pyval) : bool :=
  match v with PyList _ => true | _ => false end.

(** No tuple anywhere inside the value. *)
Fixpoint tuple_free (v : pyval) : bool :=
  match v with
  | PyTuple _ => false
  | PyList items => forallb tuple_free items
  | PyDict items => forallb (fun kv => tuple_free (snd kv)) items
  | _ => true
  end.

End py.
Export py.

(** ** Exceptions and the result of a call *)

Inductive exn : Type :=
| HTTPException (status_code : Z) (detail : string)
| RequestValidationError (msg : string)
| ValidationError (msg : string)
| GeometryError          (* whatever shapely raises on a bad mapping *)
| JSONDecodeError
| JWTError
| IntegrityError         (* unique constraint violated at flush *)
| DataError (msg : string).  (* the database rejects a value or a clause *)

Inductive result (A : Type) : Type :=
| Ok (a : A)
| Raise (e : exn).
Arguments Ok {A} a.
Arguments Raise {A} e.

(** ** The geometry codec's helper, as both crud modules define it *)

Fixpoint tuple_to_list (obj : pyval) : pyval :=
  match obj with
  | PyTuple items => PyList items
  | PyList items => PyList (map tuple_to_list items)
  | PyDict items => PyDict (map (fun kv => (fst kv, tuple_to_list (snd kv))) items)
  | _ => obj
  end.

(** ** shapely: mappings to geometries and back

    [shape] and [mapping] for the two kinds of geometry the platform
    stores.  A coordinate is the tuple of its two or three ordinates; a
    geometry without coordinates is the empty geometry of its kind.  The
    other GeoJSON types (lines, the multi-part kinds, collections) are left
    out: [shape] answers them as it answers an unknown type. *)

Module shapely.

Definition coord : Type := list Q.

Inductive BaseGeometry : Type :=
| Point (c : coord)
| Polygon (shell : list coord) (holes : list (list coord)).

Definition geom_type (g : BaseGeometry) : string :=
  match g with
  | Point _ => "Point"
  | Polygon _ _ => "Polygon"
  end.

(** [str.lower] on ASCII letters. *)
Definition lower_ascii (a : Ascii.ascii) : Ascii.ascii :=
  let n := Ascii.nat_of_ascii a in
  if ((65 <=? n) && (n <=? 90))%nat then Ascii.ascii_of_nat (n + 32) else a.

Fixpoint lower (s : string) : string :=
  match s with
  | EmptyString => EmptyString
  | String a rest => String (lower_ascii a) (lower rest)
  end.

(** Any Python sequence, as its items. *)
Definition as_sequence (v : pyval) : option (list pyval) :=
  match v with
  | PyList items | PyTuple items => Some items
  | _ => None
  end.

Definition as_float (v : pyval) : option Q :=
  match v with
  | PyNum q => Some q
  | _ => None
  end.

(** One position: two or three numbers. *)
Definition as_coord (v : pyval) : option coord :=
  items ← as_sequence v;
  c ← mapM as_float items;
  if ((length c =? 2) || (length c =? 3))%nat then Some c else None.

Definition coord_eqb (a b : coord) : bool :=
  (length a =? length b)%nat
  && forallb (fun xy => Qeq_bool (fst xy) (snd xy)) (combine a b).

(** A linear ring closes itself when its ends differ. *)
Definition close_ring (r : list coord) : list coord :=
  match r, last r with
  | first :: _, Some final => if coord_eqb first final then r else r ++ [first]
  | _, _ => r
  end.

Definition same_dimension (r : list coord) : bool :=
  match r with
  | [] => true
  | first :: rest => forallb (fun c => (length c =? length first)%nat) rest
  end.

(** A ring: positions of one dimension, at least four once closed. *)
Definition as_ring (v : pyval) : option (list coord) :=
  items ← as_sequence v;
  r ← mapM as_coord items;
  let closed := close_ring r in
  if same_dimension r && (4 <=? length closed)%nat then Some closed else None.

(** [_is_coordinates_empty]: an empty sequence, or nested empties. *)
Fixpoint is_coordinates_empty (v : pyval) : bool :=
  match v with
  | PyNone => true
  | PyList items | PyTuple items => forallb is_coordinates_empty items
  | _ => false
  end.

(** [shapely.geometry.shape(context)]; [None] when it raises. *)
Definition shape (context : pyval) : option BaseGeometry :=
  ty ← py.get context "type";
  match ty with
  | PyStr t =>
      coordinates ← dict_get "coordinates"
                      (match context with PyDict items => items | _ => [] end);
      if String.eqb (lower t) "point" then
        if is_coordinates_empty coordinates then Some (Point [])
        else Point <$> as_coord coordinates
      else if String.eqb (lower t) "polygon" then
        if is_coordinates_empty coordinates then Some (Polygon [] [])
        else
          rings ← as_sequence coordinates;
          match rings with
          | [] => None
          | shell :: holes =>
              s ← as_ring shell;
              hs ← mapM as_ring holes;
              Some (Polygon s hs)
          end
      else None
  | _ => None
  end.

Definition coord_tuple (c : coord) : pyval := PyTuple (map PyNum c).

Definition ring_tuple (r : list coord) : pyval := PyTuple (map coord_tuple r).

(** [shapely.geometry.mapping(ob)], that is [ob.__geo_interface__]:
    every sequence in it is a tuple. *)
Definition mapping (ob : BaseGeometry) : pyval :=
  match ob with
  | Point c =>
      PyDict [("type", PyStr "Point"); ("coordinates", coord_tuple c)]
  | Polygon [] _ =>
      PyDict [("type", PyStr "Polygon"); ("coordinates", PyTuple [])]
  | Polygon shell holes =>
      PyDict [("type", PyStr "Polygon");
              ("coordinates", PyTuple (map ring_tuple (shell :: holes)))]
  end.

End shapely.

(** ** geoalchemy2: the stored form of a geometry *)

Module geoalchemy2.

Record WKBElement : Type := mkWKB { data : shapely.BaseGeometry; srid : Z }.

Definition from_shape (g : shapely.BaseGeometry) (srid : Z) : WKBElement :=
  mkWKB g srid.

Definition to_shape (element : WKBElement) : shapely.BaseGeometry :=
  data element.

End geoalchemy2.
Export geoalchemy2.

(** ** jose and passlib: tokens and password hashes, symbolically

    A token is the payload it was made from together with the key and the
    algorithm that signed it, or some text that is no token at all; a hash
    is a tagged copy of the password.  Nothing below looks inside either. *)

Module jose.

Record claims : Type := mkClaims { sub : option string; exp : option Z }.

Inductive token : Type :=
| Signed (payload : claims) (key : string) (algorithm : string)
| Malformed (raw : string).

Definition encode (payload : claims) (key : string) (algorithm : string) : token :=
  Signed payload key algorithm.

(** [jwt.decode(token, key, algorithms=[...])] at clock [now]: any defect
    is a JWTError. *)
Definition decode (t : token) (key : string) (algorithms : list string) (now : Z)
  : result claims :=
  match t with
  | Signed payload k alg =>
      if negb (existsb (String.eqb alg) algorithms) then Raise JWTError
      else if negb (String.eqb k key) then Raise JWTError
      else match exp payload with
           | Some e => if (e <? now)%Z then Raise JWTError else Ok payload
           | None => Ok payload
           end
  | Malformed _ => Raise JWTError
  end.

End jose.

Module passlib.

Definition hash (password : string) : string := "$2b$" ++ password.

Definition verify (plain_password hashed_password : string) : bool :=
  String.eqb (hash plain_password) hashed_password.

End passlib.

(** ** json: text arguments of the graph surface, symbolically *)

Module json.

(** A [str] as [json.loads] sees it: the text of a value, or no JSON. *)
Inductive text : Type :=
| Text (v : pyval)
| NotJSON (raw : string).

(** What a value looks like once written out: tuples are arrays. *)
Fixpoint arrays (v : pyval) : pyval :=
  match v with
  | PyTuple items | PyList items => PyList (map arrays items)
  | PyDict items => PyDict (map (fun kv => (fst kv, arrays (snd kv))) items)
  | _ => v
  end.

Definition dumps (v : pyval) : text := Text (arrays v).

Definition loads (s : text) : result pyval :=
  match s with
  | Text v => Ok (arrays v)
  | NotJSON _ => Raise JSONDecodeError
  end.

End json.

(** ** models.py: the three tables *)

Module models.

Record User : Type := mkUser
  { user_id : Z; username : string; hashed_password : string }.

Record SpatialPoint : Type := mkSpatialPoint
  { point_id : Z; point_name : string; point_description : option string;
    location : WKBElement }.

Record SpatialPolygon : Type := mkSpatialPolygon
  { polygon_id : Z; polygon_name : string; polygon_description : option string;
    area : WKBElement }.

(** [Geometry(geometry_type='POINT', srid=4326)] and its polygon twin:
    what the column accepts at flush. *)
Definition location_column_accepts (g : WKBElement) : bool :=
  String.eqb (shapely.geom_type (data g)) "Point" && (srid g =? 4326)%Z.

Definition area_column_accepts (g : WKBElement) : bool :=
  String.eqb (shapely.geom_type (data g)) "Polygon" && (srid g =? 4326)%Z.

End models.
Export models.

(** ** The spatial engine behind the session

    The three predicates the queries delegate to.  Their geometry is the
    engine's business; [planar_dwithin] is the reading a geometry-typed
    (not geography-typed) column gives to a distance between two points:
    the Euclidean distance of the coordinates, in the units of the
    reference system, which for SRID 4326 are degrees. *)

Module postgis.

Record engine : Type := mkEngine
  { ST_Within : WKBElement -> WKBElement -> bool;
    ST_Contains : WKBElement -> WKBElement -> bool;
    ST_DWithin : WKBElement -> WKBElement -> Q -> bool }.

Definition planar_dwithin (a b : shapely.coord) (radius : Q) : bool :=
  match a, b with
  | [x1; y1], [x2; y2] =>
      Qle_bool 0 radius
      && Qle_bool ((x1 - x2) * (x1 - x2) + (y1 - y2) * (y1 - y2)) (radius * radius)
  | _, _ => false
  end.

Definition geometry_units (e : engine) : Prop :=
  forall a b radius,
    ST_DWithin e (mkWKB (shapely.Point a) 4326) (mkWKB (shapely.Point b) 4326) radius
    = planar_dwithin a b radius.

End postgis.

(** ** The database and the SQLAlchemy session

    Modelled from the spec: app/database.py and graphql_app/database.py
    (SessionLocal, engine, Base) are not among the sources.  Following the
    spec, every request acquires its own session over the one database, a
    write becomes visible to others only at commit, and a failed commit or
    a rollback leaves the committed rows as they were. *)

Module sqlalchemy.

Inductive table : Type := users | points | polygons.

Inductive statement : Type :=
| SELECT (t : table)
| INSERT (t : table)
| UPDATE (t : table)
| DELETE (t : table).

Definition table_of (st : statement) : table :=
  match st with SELECT t | INSERT t | UPDATE t | DELETE t => t end.

(** Committed state: the rows of each table in storage order and the last
    value each primary-key sequence handed out. *)
Record Database : Type := mkDatabase
  { users_rows : list User;
    points_rows : list SpatialPoint;
    polygons_rows : list SpatialPolygon;
    users_id_seq : Z;
    points_id_seq : Z;
    polygons_id_seq : Z }.

(** The unit of work: what [db.add], attribute assignment on a loaded
    object and [db.delete] leave pending until the next flush. *)
Inductive change : Type :=
| NewUser (name hashed : string)
| NewPoint (name : string) (description : option string) (geom : WKBElement)
| NewPolygon (name : string) (description : option string) (geom : WKBElement)
| SetPointName (id : Z) (name : string)
| SetPointDescription (id : Z) (description : option string)
| SetPointLocation (id : Z) (geom : WKBElement)
| SetPolygonName (id : Z) (name : string)
| SetPolygonDescription (id : Z) (description : option string)
| SetPolygonArea (id : Z) (geom : WKBElement)
| DeletePoint (id : Z)
| DeletePolygon (id : Z).

Definition statement_of (c : change) : statement :=
  match c with
  | NewUser _ _ => INSERT users
  | NewPoint _ _ _ => INSERT points
  | NewPolygon _ _ _ => INSERT polygons
  | SetPointName _ _ | SetPointDescription _ _ | SetPointLocation _ _ => UPDATE points
  | SetPolygonName _ _ | SetPolygonDescription _ _ | SetPolygonArea _ _ => UPDATE polygons
  | DeletePoint _ => DELETE points
  | DeletePolygon _ => DELETE polygons
  end.

Definition with_users (rows : list User) (seq : Z) (d : Database) : Database :=
  mkDatabase rows (points_rows d) (polygons_rows d)
             seq (points_id_seq d) (polygons_id_seq d).

Definition with_points (rows : list SpatialPoint) (seq : Z) (d : Database) : Database :=
  mkDatabase (users_rows d) rows (polygons_rows d)
             (users_id_seq d) seq (polygons_id_seq d).

Definition with_polygons (rows : list SpatialPolygon) (seq : Z) (d : Database) : Database :=
  mkDatabase (users_rows d) (points_rows d) rows
             (users_id_seq d) (points_id_seq d) seq.

Definition update_point_row (id : Z) (f : SpatialPoint -> SpatialPoint)
  (rows : list SpatialPoint) : list SpatialPoint :=
  map (fun r => if (point_id r =? id)%Z then f r else r) rows.

Definition update_polygon_row (id : Z) (f : SpatialPolygon -> SpatialPolygon)
  (rows : list SpatialPolygon) : list SpatialPolygon :=
  map (fun r => if (polygon_id r =? id)%Z then f r else r) rows.

(** One pending change against the tables, with the constraints
    models.py declares: unique usernames, typed geometry columns.  The
    primary key a new row receives comes back with the new state. *)
Definition flush_change (c : change) (d : Database) : result (Database * list Z) :=
  match c with
  | NewUser name hashed =>
      if existsb (fun r => String.eqb (username r) name) (users_rows d)
      then Raise IntegrityError
      else let id := (users_id_seq d + 1)%Z in
           Ok (with_users (users_rows d ++ [mkUser id name hashed]) id d, [id])
  | NewPoint name description geom =>
      if location_column_accepts geom
      then let id := (points_id_seq d + 1)%Z in
           Ok (with_points (points_rows d ++ [mkSpatialPoint id name description geom]) id d,
               [id])
      else Raise (DataError "Geometry type does not match column type")
  | NewPolygon name description geom =>
      if area_column_accepts geom
      then let id := (polygons_id_seq d + 1)%Z in
           Ok (with_polygons
                 (polygons_rows d ++ [mkSpatialPolygon id name description geom]) id d,
               [id])
      else Raise (DataError "Geometry type does not match column type")
  | SetPointName id name =>
      Ok (with_points
            (update_point_row id
               (fun r => mkSpatialPoint (point_id r) name (point_description r) (location r))
               (points_rows d)) (points_id_seq d) d, [])
  | SetPointDescription id description =>
      Ok (with_points
            (update_point_row id
               (fun r => mkSpatialPoint (point_id r) (point_name r) description (location r))
               (points_rows d)) (points_id_seq d) d, [])
  | SetPointLocation id geom =>
      if location_column_accepts geom
      then Ok (with_points
                 (update_point_row id
                    (fun r => mkSpatialPoint (point_id r) (point_name r)
                                (point_description r) geom)
                    (points_rows d)) (points_id_seq d) d, [])
      else Raise (DataError "Geometry type does not match column type")
  | SetPolygonName id name =>
      Ok (with_polygons
            (update_polygon_row id
               (fun r => mkSpatialPolygon (polygon_id r) name (polygon_description r) (area r))
               (polygons_rows d)) (polygons_id_seq d) d, [])
  | SetPolygonDescription id description =>
      Ok (with_polygons
            (update_polygon_row id
               (fun r => mkSpatialPolygon (polygon_id r) (polygon_name r) description (area r))
               (polygons_rows d)) (polygons_id_seq d) d, [])
  | SetPolygonArea id geom =>
      if area_column_accepts geom
      then Ok (with_polygons
                 (update_polygon_row id
                    (fun r => mkSpatialPolygon (polygon_id r) (polygon_name r)
                                (polygon_description r) geom)
                    (polygons_rows d)) (polygons_id_seq d) d, [])
      else Raise (DataError "Geometry type does not match column type")
  | DeletePoint id =>
      Ok (with_points (List.filter (fun r => negb (point_id r =? id)%Z) (points_rows d))
                      (points_id_seq d) d, [])
  | DeletePolygon id =>
      Ok (with_polygons (List.filter (fun r => negb (polygon_id r =? id)%Z) (polygons_rows d))
                        (polygons_id_seq d) d, [])
  end.

(** The whole unit of work in one transaction: all of it or nothing. *)
Fixpoint flush (cs : list change) (d : Database) : result (Database * list Z) :=
  match cs with
  | [] => Ok (d, [])
  | c :: rest =>
      match flush_change c d with
      | Ok (d1, keys1) =>
          match flush rest d1 with
          | Ok (d2, keys2) => Ok (d2, keys1 ++ keys2)
          | Raise e => Raise e
          end
      | Raise e => Raise e
      end
  end.

Record Session : Type := mkSession
  { bind : postgis.engine;
    store : Database;
    pending : list change;
    log : list statement }.

(** [SessionLocal()] *)
Definition SessionLocal (e : postgis.engine) (d : Database) : Session :=
  mkSession e d [] [].

End sqlalchemy.
Export sqlalchemy.

(** ** Code that runs against a session: state and exceptions *)

Definition M (A : Type) : Type := Session -> result A * Session.

Definition ret {A : Type} (a : A) : M A := fun s => (Ok a, s).

Definition raise {A : Type} (e : exn) : M A := fun s => (Raise e, s).

Definition bind_M {A B : Type} (m : M A) (k : A -> M B) : M B :=
  fun s =>
    match m s with
    | (Ok a, s') => k a s'
    | (Raise e, s') => (Raise e, s')
    end.

Notation "'let*' x ':=' m 'in' k" := (bind_M m (fun x => k))
  (at level 10, x name, m at level 100, k at level 200).

(** [try: body / except Exception: handler] *)
Definition try_except {A : Type} (body : M A) (handler : exn -> M A) : M A :=
  fun s =>
    match body s with
    | (Raise e, s') => handler e s'
    | r => r
    end.

(** A library call that may raise, inside session code. *)
Definition lift {A : Type} (r : result A) : M A := fun s => (r, s).

Definition sent (st : statement) (s : Session) : Session :=
  mkSession (bind s) (store s) (pending s) (log s ++ [st]).

(** [db.query(...)...]: one SELECT answered from the committed rows. *)
Definition query {A : Type} (t : table) (answer : postgis.engine -> Database -> A) : M A :=
  fun s => (Ok (answer (bind s) (store s)), sent (SELECT t) s).

(** [db.add(obj)], [obj.attr = v], [db.delete(obj)] *)
Definition mark (c : change) : M unit :=
  fun s => (Ok tt, mkSession (bind s) (store s) (pending s ++ [c]) (log s)).

(** [db.commit()]: flush the unit of work; the keys of the inserted rows
    are what the added objects carry afterwards. *)
Definition commit : M (list Z) :=
  fun s =>
    let s' := mkSession (bind s) (store s) (pending s)
                        (log s ++ map statement_of (pending s)) in
    match flush (pending s) (store s) with
    | Ok (d, keys) => (Ok keys, mkSession (bind s) d [] (log s'))
    | Raise e => (Raise e, s')
    end.

(** [db.rollback()] *)
Definition rollback : M unit :=
  fun s => (Ok tt, mkSession (bind s) (store s) [] (log s)).

(** [.offset(skip).limit(limit)]: the database refuses negative values. *)
Definition offset_limit {A : Type} (skip limit : Z) (rows : list A) : result (list A) :=
  if (skip <? 0)%Z then Raise (DataError "OFFSET must not be negative")
  else if (limit <? 0)%Z then Raise (DataError "LIMIT must not be negative")
  else Ok (firstn (Z.to_nat limit) (skipn (Z.to_nat skip) rows)).

(** A request from acquiring its session to closing it: the outcome, the
    committed state left behind and the statements that were sent. *)
Definition run {A : Type} (e : postgis.engine) (d : Database) (m : M A)
  : result A * Database * list statement :=
  let '(r, s) := m (SessionLocal e d) in (r, store s, log s).

Definition outcome {A : Type} (x : result A * Database * list statement) : result A :=
  fst (fst x).

Definition state_after {A : Type} (x : result A * Database * list statement) : Database :=
  snd (fst x).

Definition statements {A : Type} (x : result A * Database * list statement)
  : list statement := snd x.

(** The process: its environment variables and its clock (seconds). *)
Record process : Type := mkProcess { environ : gmap string string; utcnow : Z }.

(** [os.getenv(name, default)] *)
Definition os_getenv (p : process) (name fallback : string) : string :=
  default fallback (environ p !! name).

(** ** schemas.py: the pydantic models of the resource surface

    graphql_app/schemas.py declares the classes app/crud.py and
    app/main.py import as [schemas].  [PointCreate] and [PointUpdate] add
    nothing to [PointBase], nor do the polygon ones to [PolygonBase]. *)

Module schemas.

Record UserCreate : Type := mkUserCreate { username : string; password : string }.

Module PointBase.
Record t : Type := mk { name : string; description : option string; location : pyval }.
End PointBase.

Module PolygonBase.
Record t : Type := mk { name : string; description : option string; area : pyval }.
End PolygonBase.

Module PointOut.
Record t : Type := mk
  { id : Z; name : string; description : option string; location : pyval }.
End PointOut.

Module PolygonOut.
Record t : Type := mk
  { id : Z; name : string; description : option string; area : pyval }.
End PolygonOut.

Record PointWithinPolygonQuery : Type := mkPointWithinPolygonQuery { polygon : pyval }.

Record PolygonContainingPointQuery : Type := mkPolygonContainingPointQuery
  { point : pyval }.

Record PointsNearbyQuery : Type := mkPointsNearbyQuery
  { nearby_point : pyval; radius : Q }.

(** The annotation [Dict[str, Any]] *)
Definition is_dict (v : pyval) : bool :=
  match v with PyDict _ => true | _ => false end.

Definition type_is (v : pyval) (expected : string) : bool :=
  match py.get v "type" with
  | Some (PyStr t) => String.eqb t expected
  | _ => false
  end.

Definition coordinates_is_list (v : pyval) : bool :=
  match py.get v "coordinates" with
  | Some c => is_list c
  | None => false
  end.

(** [@validator('location')] *)
Definition validate_point (v : pyval) : result pyval :=
  if negb (is_dict v) then Raise (ValidationError "value is not a valid dict")
  else if negb (type_is v "Point") || negb (coordinates_is_list v)
       then Raise (ValidationError "location must be a GeoJSON Point")
       else Ok v.

(** [@validator('area')] *)
Definition validate_polygon (v : pyval) : result pyval :=
  if negb (is_dict v) then Raise (ValidationError "value is not a valid dict")
  else if negb (type_is v "Polygon") || negb (coordinates_is_list v)
       then Raise (ValidationError "area must be a GeoJSON Polygon")
       else Ok v.

(** A query field typed [Dict[str, Any]] without a validator. *)
Definition validate_dict (v : pyval) : result pyval :=
  if is_dict v then Ok v else Raise (ValidationError "value is not a valid dict").

End schemas.

(** [from_shape(shape(geojson), srid=4326)], which raises when [shape] does. *)
Definition decode_geometry (geojson : pyval) : result WKBElement :=
  match shapely.shape geojson with
  | Some g => Ok (from_shape g 4326)
  | None => Raise GeometryError
  end.

(** [mapping(to_shape(element))] *)
Definition geo_interface (element : WKBElement) : pyval :=
  shapely.mapping (to_shape element).

(** [[f(x) for x in xs]], stopping at the first exception. *)
Fixpoint each {A B : Type} (f : A -> result B) (xs : list A) : result (list B) :=
  match xs with
  | [] => Ok []
  | x :: rest =>
      match f x with
      | Ok y => match each f rest with
                | Ok ys => Ok (y :: ys)
                | Raise e => Raise e
                end
      | Raise e => Raise e
      end
  end.

(** A decoding whose exception the caller answers with [None]. *)
Definition fmap_geom (r : result WKBElement) : M (option WKBElement) :=
  match r with
  | Ok g => ret (Some g)
  | Raise e => raise e
  end.

(** The object [db.add] was given, after [db.commit] and [db.refresh]. *)
Definition added_key (keys : list Z) : M Z :=
  match keys with
  | key :: _ => ret key
  | [] => raise (DataError "Instance is not persistent within this Session")
  end.

Definition loaded {A : Type} (row : option A) : M A :=
  match row with
  | Some r => ret r
  | None => raise (DataError "Could not refresh instance")
  end.

(** ** app/crud.py *)

Module app.
Module crud.

Definition SECRET_KEY (p : process) : string :=
  os_getenv p "SECRET_KEY" "supersecretkey".

Definition ALGORITHM : string := "HS256".

Definition ACCESS_TOKEN_EXPIRE_MINUTES : Z := 60.

Definition get_password_hash (password : string) : string := passlib.hash password.

Definition verify_password (plain_password hashed_password : string) : bool :=
  passlib.verify plain_password hashed_password.

(** Durations are seconds; a zero [expires_delta] is falsy, like none. *)
Definition create_access_token (p : process) (data : jose.claims)
  (expires_delta : option Z) : jose.token :=
  let delta := match expires_delta with
               | Some d => if (d =? 0)%Z then (ACCESS_TOKEN_EXPIRE_MINUTES * 60)%Z else d
               | None => (ACCESS_TOKEN_EXPIRE_MINUTES * 60)%Z
               end in
  let expire := (utcnow p + delta)%Z in
  jose.encode (jose.mkClaims (jose.sub data) (Some expire)) (SECRET_KEY p) ALGORITHM.

Definition get_user_by_username (username : string) : M (option User) :=
  query users (fun _ d =>
    List.find (fun r => String.eqb (models.username r) username) (users_rows d)).

Definition refresh_user (key : Z) : M User :=
  let* row := query users (fun _ d =>
                List.find (fun r => (user_id r =? key)%Z) (users_rows d)) in
  loaded row.

Definition create_user (user : schemas.UserCreate) : M User :=
  let hashed_password := get_password_hash (schemas.password user) in
  let* _ := mark (NewUser (schemas.username user) hashed_password) in
  try_except
    (let* keys := commit in
     let* key := added_key keys in
     refresh_user key)
    (fun e =>
       match e with
       | IntegrityError =>
           let* _ := rollback in
           raise (HTTPException 400 "Username already registered")
       | _ => raise e
       end).

Definition authenticate_user (username password : string) : M (option User) :=
  let* user := get_user_by_username username in
  match user with
  | Some u => if verify_password password (hashed_password u) then ret (Some u)
              else ret None
  | None => ret None
  end.

(** *** Points CRUD *)

Definition get_point (point_id : Z) : M (option SpatialPoint) :=
  query points (fun _ d =>
    List.find (fun r => (models.point_id r =? point_id)%Z) (points_rows d)).

Definition refresh_point (key : Z) : M SpatialPoint :=
  let* row := get_point key in loaded row.

Definition create_point (point : schemas.PointBase.t) : M SpatialPoint :=
  let* geom := try_except (lift (decode_geometry (schemas.PointBase.location point)))
                 (fun _ => raise (HTTPException 422 "Invalid GeoJSON for Point")) in
  let* _ := mark (NewPoint (schemas.PointBase.name point)
                           (schemas.PointBase.description point) geom) in
  let* keys := commit in
  let* key := added_key keys in
  refresh_point key.

Definition get_points (skip limit : Z) : M (list SpatialPoint) :=
  let* rows := query points (fun _ d => offset_limit skip limit (points_rows d)) in
  lift rows.

Definition update_point (point_id : Z) (point : schemas.PointBase.t)
  : M (option SpatialPoint) :=
  let* db_point := get_point point_id in
  match db_point with
  | Some _ =>
      try_except
        (let* _ := mark (SetPointName point_id (schemas.PointBase.name point)) in
         let* _ := mark (SetPointDescription point_id
                           (schemas.PointBase.description point)) in
         let* geom := lift (decode_geometry (schemas.PointBase.location point)) in
         let* _ := mark (SetPointLocation point_id geom) in
         let* _ := commit in
         let* row := refresh_point point_id in
         ret (Some row))
        (fun _ =>
           let* _ := rollback in
           raise (HTTPException 422 "Invalid GeoJSON for Point"))
  | None => ret None
  end.

Definition delete_point (point_id : Z) : M (option SpatialPoint) :=
  let* db_point := get_point point_id in
  match db_point with
  | Some row =>
      let* _ := mark (DeletePoint point_id) in
      let* _ := commit in
      ret (Some row)
  | None => ret None
  end.

(** *** Polygons CRUD *)

Definition get_polygon (polygon_id : Z) : M (option SpatialPolygon) :=
  query polygons (fun _ d =>
    List.find (fun r => (models.polygon_id r =? polygon_id)%Z) (polygons_rows d)).

Definition refresh_polygon (key : Z) : M SpatialPolygon :=
  let* row := get_polygon key in loaded row.

Definition create_polygon (polygon : schemas.PolygonBase.t) : M SpatialPolygon :=
  let* geom := try_except (lift (decode_geometry (schemas.PolygonBase.area polygon)))
                 (fun _ => raise (HTTPException 422 "Invalid GeoJSON for Polygon")) in
  let* _ := mark (NewPolygon (schemas.PolygonBase.name polygon)
                             (schemas.PolygonBase.description polygon) geom) in
  let* keys := commit in
  let* key := added_key keys in
  refresh_polygon key.

Definition get_polygons (skip limit : Z) : M (list SpatialPolygon) :=
  let* rows := query polygons (fun _ d => offset_limit skip limit (polygons_rows d)) in
  lift rows.

Definition update_polygon (polygon_id : Z) (polygon : schemas.PolygonBase.t)
  : M (option SpatialPolygon) :=
  let* db_polygon := get_polygon polygon_id in
  match db_polygon with
  | Some _ =>
      try_except
        (let* _ := mark (SetPolygonName polygon_id (schemas.PolygonBase.name polygon)) in
         let* _ := mark (SetPolygonDescription polygon_id
                           (schemas.PolygonBase.description polygon)) in
         let* geom := lift (decode_geometry (schemas.PolygonBase.area polygon)) in
         let* _ := mark (SetPolygonArea polygon_id geom) in
         let* _ := commit in
         let* row := refresh_polygon polygon_id in
         ret (Some row))
        (fun _ =>
           let* _ := rollback in
           raise (HTTPException 422 "Invalid GeoJSON for Polygon"))
  | None => ret None
  end.

Definition delete_polygon (polygon_id : Z) : M (option SpatialPolygon) :=
  let* db_polygon := get_polygon polygon_id in
  match db_polygon with
  | Some row =>
      let* _ := mark (DeletePolygon polygon_id) in
      let* _ := commit in
      ret (Some row)
  | None => ret None
  end.

(** *** Serialisation *)

Definition point_to_schema (db_point : SpatialPoint) : result schemas.PointOut.t :=
  let geojson := geo_interface (location db_point) in
  let geojson := tuple_to_list geojson in
  match schemas.validate_point geojson with
  | Ok v => Ok (schemas.PointOut.mk (point_id db_point) (point_name db_point)
                                     (point_description db_point) v)
  | Raise e => Raise e
  end.

Definition polygon_to_schema (db_polygon : SpatialPolygon)
  : result schemas.PolygonOut.t :=
  let geojson := geo_interface (area db_polygon) in
  let geojson := tuple_to_list geojson in
  match schemas.validate_polygon geojson with
  | Ok v => Ok (schemas.PolygonOut.mk (polygon_id db_polygon) (polygon_name db_polygon)
                                       (polygon_description db_polygon) v)
  | Raise e => Raise e
  end.

(** *** Spatial queries *)

Definition points_within_polygon (polygon_geojson : pyval) : M (list SpatialPoint) :=
  let* poly_shape := try_except (lift (decode_geometry polygon_geojson))
                       (fun _ => raise (HTTPException 422 "Invalid GeoJSON for Polygon")) in
  query points (fun e d =>
    List.filter (fun r => postgis.ST_Within e (location r) poly_shape) (points_rows d)).

Definition polygons_containing_point (point_geojson : pyval) : M (list SpatialPolygon) :=
  let* pt_shape := try_except (lift (decode_geometry point_geojson))
                     (fun _ => raise (HTTPException 422 "Invalid GeoJSON for Point")) in
  query polygons (fun e d =>
    List.filter (fun r => postgis.ST_Contains e (area r) pt_shape) (polygons_rows d)).

Definition points_nearby (point_geojson : pyval) (radius : Q) : M (list SpatialPoint) :=
  let* pt_shape := try_except (lift (decode_geometry point_geojson))
                     (fun _ => raise (HTTPException 422 "Invalid GeoJSON for Point")) in
  query points (fun e d =>
    List.filter (fun r => postgis.ST_DWithin e (location r) pt_shape radius)
                (points_rows d)).

End crud.

(** ** app/main.py

    A request carries its Authorization header as the scheme and the
    credentials after it.  FastAPI resolves the dependencies of an endpoint
    (the session, the current user) before it validates the body, and turns
    an exception into a response: the status of an HTTPException, 422 for a
    body that fails validation, 500 for anything else. *)

Module main.

Record Request : Type := mkRequest { authorization : option (string * jose.token) }.

Definition status_code {A : Type} (r : result A) : Z :=
  match r with
  | Ok _ => 200
  | Raise (HTTPException code _) => code
  | Raise (RequestValidationError _) => 422
  | Raise _ => 500
  end.

(** A body or query model that pydantic refuses. *)
Definition body {A : Type} (r : result A) : M A :=
  match r with
  | Raise (ValidationError msg) => raise (RequestValidationError msg)
  | _ => lift r
  end.

(** [OAuth2PasswordBearer(tokenUrl="/token")] *)
Definition oauth2_scheme (request : Request) : M jose.token :=
  match authorization request with
  | Some (scheme, param) =>
      if String.eqb (shapely.lower scheme) "bearer" then ret param
      else raise (HTTPException 401 "Not authenticated")
  | None => raise (HTTPException 401 "Not authenticated")
  end.

Definition credentials_exception : exn :=
  HTTPException 401 "Could not validate credentials".

Definition get_current_user (p : process) (request : Request) : M User :=
  let* token := oauth2_scheme request in
  let* username :=
    try_except
      (let* payload := lift (jose.decode token (crud.SECRET_KEY p) [crud.ALGORITHM]
                                         (utcnow p)) in
       match jose.sub payload with
       | None => raise credentials_exception
       | Some username => ret username
       end)
      (fun e =>
         match e with
         | JWTError => raise credentials_exception
         | _ => raise e
         end) in
  let* user := crud.get_user_by_username username in
  match user with
  | None => raise credentials_exception
  | Some u => ret u
  end.

(** *** Auth endpoints *)

Definition register (user : schemas.UserCreate) : M User :=
  crud.create_user user.

Definition login (p : process) (username password : string) : M jose.token :=
  let* user := crud.authenticate_user username password in
  match user with
  | None => raise (HTTPException 400 "Incorrect username or password")
  | Some u =>
      ret (crud.create_access_token p
             (jose.mkClaims (Some (models.username u)) None) None)
  end.

Definition PointBase_model (point : schemas.PointBase.t) : result schemas.PointBase.t :=
  match schemas.validate_point (schemas.PointBase.location point) with
  | Ok _ => Ok point
  | Raise e => Raise e
  end.

Definition PolygonBase_model (polygon : schemas.PolygonBase.t)
  : result schemas.PolygonBase.t :=
  match schemas.validate_polygon (schemas.PolygonBase.area polygon) with
  | Ok _ => Ok polygon
  | Raise e => Raise e
  end.

Definition found {A : Type} (row : option A) (detail : string) : M A :=
  match row with
  | Some r => ret r
  | None => raise (HTTPException 404 detail)
  end.

(** *** Points (protected) *)

Definition create_point (p : process) (request : Request) (point : schemas.PointBase.t)
  : M schemas.PointOut.t :=
  let* user := get_current_user p request in
  let* point := body (PointBase_model point) in
  let* db_point := crud.create_point point in
  lift (crud.point_to_schema db_point).

Definition list_points (p : process) (request : Request) (skip limit : option Z)
  : M (list schemas.PointOut.t) :=
  let* user := get_current_user p request in
  let* points := crud.get_points (default 0%Z skip) (default 100%Z limit) in
  lift (each crud.point_to_schema points).

Definition get_point (p : process) (request : Request) (point_id : Z)
  : M schemas.PointOut.t :=
  let* user := get_current_user p request in
  let* db_point := crud.get_point point_id in
  let* db_point := found db_point "Point not found" in
  lift (crud.point_to_schema db_point).

Definition update_point (p : process) (request : Request) (point_id : Z)
  (point : schemas.PointBase.t) : M schemas.PointOut.t :=
  let* user := get_current_user p request in
  let* point := body (PointBase_model point) in
  let* db_point := crud.update_point point_id point in
  let* db_point := found db_point "Point not found" in
  lift (crud.point_to_schema db_point).

Definition delete_point (p : process) (request : Request) (point_id : Z)
  : M schemas.PointOut.t :=
  let* user := get_current_user p request in
  let* db_point := crud.delete_point point_id in
  let* db_point := found db_point "Point not found" in
  lift (crud.point_to_schema db_point).

(** *** Polygons (protected) *)

Definition create_polygon (p : process) (request : Request)
  (polygon : schemas.PolygonBase.t) : M schemas.PolygonOut.t :=
  let* user := get_current_user p request in
  let* polygon := body (PolygonBase_model polygon) in
  let* db_polygon := crud.create_polygon polygon in
  lift (crud.polygon_to_schema db_polygon).

Definition list_polygons (p : process) (request : Request) (skip limit : option Z)
  : M (list schemas.PolygonOut.t) :=
  let* user := get_current_user p request in
  let* polygons := crud.get_polygons (default 0%Z skip) (default 100%Z limit) in
  lift (each crud.polygon_to_schema polygons).

Definition get_polygon (p : process) (request : Request) (polygon_id : Z)
  : M schemas.PolygonOut.t :=
  let* user := get_current_user p request in
  let* db_polygon := crud.get_polygon polygon_id in
  let* db_polygon := found db_polygon "Polygon not found" in
  lift (crud.polygon_to_schema db_polygon).

Definition update_polygon (p : process) (request : Request) (polygon_id : Z)
  (polygon : schemas.PolygonBase.t) : M schemas.PolygonOut.t :=
  let* user := get_current_user p request in
  let* polygon := body (PolygonBase_model polygon) in
  let* db_polygon := crud.update_polygon polygon_id polygon in
  let* db_polygon := found db_polygon "Polygon not found" in
  lift (crud.polygon_to_schema db_polygon).

Definition delete_polygon (p : process) (request : Request) (polygon_id : Z)
  : M schemas.PolygonOut.t :=
  let* user := get_current_user p request in
  let* db_polygon := crud.delete_polygon polygon_id in
  let* db_polygon := found db_polygon "Polygon not found" in
  lift (crud.polygon_to_schema db_polygon).

(** *** Spatial query endpoints (protected) *)

Definition points_within_polygon (p : process) (request : Request)
  (query : schemas.PointWithinPolygonQuery) : M (list schemas.PointOut.t) :=
  let* user := get_current_user p request in
  let* polygon := body (schemas.validate_dict (schemas.polygon query)) in
  let* points := crud.points_within_polygon polygon in
  lift (each crud.point_to_schema points).

Definition polygons_containing_point (p : process) (request : Request)
  (query : schemas.PolygonContainingPointQuery) : M (list schemas.PolygonOut.t) :=
  let* user := get_current_user p request in
  let* point := body (schemas.validate_dict (schemas.point query)) in
  let* polygons := crud.polygons_containing_point point in
  lift (each crud.polygon_to_schema polygons).

Definition points_nearby (p : process) (request : Request)
  (query : schemas.PointsNearbyQuery) : M (list schemas.PointOut.t) :=
  let* user := get_current_user p request in
  let* point := body (schemas.validate_dict (schemas.nearby_point query)) in
  let* points := crud.points_nearby point (schemas.radius query) in
  lift (each crud.point_to_schema points).

(** *** The protected operations of the surface, as one family *)

Inductive operation : Type :=
| CreatePoint (point : schemas.PointBase.t)
| ListPoints (skip limit : option Z)
| GetPoint (point_id : Z)
| UpdatePoint (point_id : Z) (point : schemas.PointBase.t)
| DeletePoint (point_id : Z)
| CreatePolygon (polygon : schemas.PolygonBase.t)
| ListPolygons (skip limit : option Z)
| GetPolygon (polygon_id : Z)
| UpdatePolygon (polygon_id : Z) (polygon : schemas.PolygonBase.t)
| DeletePolygon (polygon_id : Z)
| PointsWithinPolygon (query : schemas.PointWithinPolygonQuery)
| PolygonsContainingPoint (query : schemas.PolygonContainingPointQuery)
| PointsNearby (query : schemas.PointsNearbyQuery).

Inductive content : Type :=
| OnePoint (item : schemas.PointOut.t)
| ManyPoints (items : list schemas.PointOut.t)
| OnePolygon (item : schemas.PolygonOut.t)
| ManyPolygons (items : list schemas.PolygonOut.t).

Definition fmap_M {A B : Type} (f : A -> B) (m : M A) : M B :=
  let* a := m in ret (f a).

Definition route (p : process) (request : Request) (op : operation) : M content :=
  match op with
  | CreatePoint point => fmap_M OnePoint (create_point p request point)
  | ListPoints skip limit => fmap_M ManyPoints (list_points p request skip limit)
  | GetPoint point_id => fmap_M OnePoint (get_point p request point_id)
  | UpdatePoint point_id point => fmap_M OnePoint (update_point p request point_id point)
  | DeletePoint point_id => fmap_M OnePoint (delete_point p request point_id)
  | CreatePolygon polygon => fmap_M OnePolygon (create_polygon p request polygon)
  | ListPolygons skip limit => fmap_M ManyPolygons (list_polygons p request skip limit)
  | GetPolygon polygon_id => fmap_M OnePolygon (get_polygon p request polygon_id)
  | UpdatePolygon polygon_id polygon =>
      fmap_M OnePolygon (update_polygon p request polygon_id polygon)
  | DeletePolygon polygon_id => fmap_M OnePolygon (delete_polygon p request polygon_id)
  | PointsWithinPolygon query => fmap_M ManyPoints (points_within_polygon p request query)
  | PolygonsContainingPoint query =>
      fmap_M ManyPolygons (polygons_containing_point p request query)
  | PointsNearby query => fmap_M ManyPoints (points_nearby p request query)
  end.

End main.
End app.

(** ** graphql_app/crud.py

    The graph surface has its own copy of the repository, which answers a
    failure with [None], [False] or an empty list where the resource one
    raises. *)

Module graphql_app.
Module crud.

Definition SECRET_KEY (p : process) : string :=
  os_getenv p "SECRET_KEY" "supersecretkey".

Definition ALGORITHM : string := "HS256".

Definition ACCESS_TOKEN_EXPIRE_MINUTES : Z := 60.

Definition get_password_hash (password : string) : string := passlib.hash password.

Definition verify_password (plain_password hashed_password : string) : bool :=
  passlib.verify plain_password hashed_password.

Definition create_access_token (p : process) (data : jose.claims)
  (expires_delta : option Z) : jose.token :=
  let delta := match expires_delta with
               | Some d => if (d =? 0)%Z then (ACCESS_TOKEN_EXPIRE_MINUTES * 60)%Z else d
               | None => (ACCESS_TOKEN_EXPIRE_MINUTES * 60)%Z
               end in
  let expire := (utcnow p + delta)%Z in
  jose.encode (jose.mkClaims (jose.sub data) (Some expire)) (SECRET_KEY p) ALGORITHM.

Definition get_user_by_username (username : string) : M (option User) :=
  query users (fun _ d =>
    List.find (fun r => String.eqb (models.username r) username) (users_rows d)).

Definition refresh_user (key : Z) : M User :=
  let* row := query users (fun _ d =>
                List.find (fun r => (user_id r =? key)%Z) (users_rows d)) in
  loaded row.

Definition create_user (username password : string) : M (option User) :=
  let hashed_password := get_password_hash password in
  let* _ := mark (NewUser username hashed_password) in
  try_except
    (let* keys := commit in
     let* key := added_key keys in
     let* row := refresh_user key in
     ret (Some row))
    (fun e =>
       match e with
       | IntegrityError => let* _ := rollback in ret None
       | _ => raise e
       end).

Definition authenticate_user (username password : string) : M (option User) :=
  let* user := get_user_by_username username in
  match user with
  | Some u => if verify_password password (hashed_password u) then ret (Some u)
              else ret None
  | None => ret None
  end.

(** *** Points CRUD *)

Definition get_point (point_id : Z) : M (option SpatialPoint) :=
  query points (fun _ d =>
    List.find (fun r => (models.point_id r =? point_id)%Z) (points_rows d)).

Definition refresh_point (key : Z) : M SpatialPoint :=
  let* row := get_point key in loaded row.

(** The decoding alone is under [try]; the commit is not. *)
Definition create_point (name description : string) (location : pyval)
  : M (option SpatialPoint) :=
  let* geom := try_except (fmap_geom (decode_geometry location)) (fun _ => ret None) in
  match geom with
  | None => ret None
  | Some geom =>
      let* _ := mark (NewPoint name (Some description) geom) in
      let* keys := commit in
      let* key := added_key keys in
      let* row := refresh_point key in
      ret (Some row)
  end.

Definition get_points : M (list SpatialPoint) :=
  query points (fun _ d => points_rows d).

Definition update_point (point_id : Z) (name description : string) (location : pyval)
  : M (option SpatialPoint) :=
  let* db_point := get_point point_id in
  match db_point with
  | Some _ =>
      try_except
        (let* _ := mark (SetPointName point_id name) in
         let* _ := mark (SetPointDescription point_id (Some description)) in
         let* geom := lift (decode_geometry location) in
         let* _ := mark (SetPointLocation point_id geom) in
         let* _ := commit in
         let* row := refresh_point point_id in
         ret (Some row))
        (fun _ => let* _ := rollback in ret None)
  | None => ret None
  end.

Definition delete_point (point_id : Z) : M bool :=
  let* db_point := get_point point_id in
  match db_point with
  | Some _ =>
      let* _ := mark (DeletePoint point_id) in
      let* _ := commit in
      ret true
  | None => ret false
  end.

(** *** Polygons CRUD *)

Definition get_polygon (polygon_id : Z) : M (option SpatialPolygon) :=
  query polygons (fun _ d =>
    List.find (fun r => (models.polygon_id r =? polygon_id)%Z) (polygons_rows d)).

Definition refresh_polygon (key : Z) : M SpatialPolygon :=
  let* row := get_polygon key in loaded row.

Definition create_polygon (name description : string) (area : pyval)
  : M (option SpatialPolygon) :=
  let* geom := try_except (fmap_geom (decode_geometry area)) (fun _ => ret None) in
  match geom with
  | None => ret None
  | Some geom =>
      let* _ := mark (NewPolygon name (Some description) geom) in
      let* keys := commit in
      let* key := added_key keys in
      let* row := refresh_polygon key in
      ret (Some row)
  end.

Definition get_polygons : M (list SpatialPolygon) :=
  query polygons (fun _ d => polygons_rows d).

Definition update_polygon (polygon_id : Z) (name description : string) (area : pyval)
  : M (option SpatialPolygon) :=
  let* db_polygon := get_polygon polygon_id in
  match db_polygon with
  | Some _ =>
      try_except
        (let* _ := mark (SetPolygonName polygon_id name) in
         let* _ := mark (SetPolygonDescription polygon_id (Some description)) in
         let* geom := lift (decode_geometry area) in
         let* _ := mark (SetPolygonArea polygon_id geom) in
         let* _ := commit in
         let* row := refresh_polygon polygon_id in
         ret (Some row))
        (fun _ => let* _ := rollback in ret None)
  | None => ret None
  end.

Definition delete_polygon (polygon_id : Z) : M bool :=
  let* db_polygon := get_polygon polygon_id in
  match db_polygon with
  | Some _ =>
      let* _ := mark (DeletePolygon polygon_id) in
      let* _ := commit in
      ret true
  | None => ret false
  end.

(** *** Spatial queries *)

Definition points_within_polygon (polygon_geojson : pyval) : M (list SpatialPoint) :=
  let* poly_shape := try_except (fmap_geom (decode_geometry polygon_geojson))
                       (fun _ => ret None) in
  match poly_shape with
  | None => ret []
  | Some poly_shape =>
      query points (fun e d =>
        List.filter (fun r => postgis.ST_Within e (location r) poly_shape) (points_rows d))
  end.

Definition polygons_containing_point (point_geojson : pyval) : M (list SpatialPolygon) :=
  let* pt_shape := try_except (fmap_geom (decode_geometry point_geojson))
                     (fun _ => ret None) in
  match pt_shape with
  | None => ret []
  | Some pt_shape =>
      query polygons (fun e d =>
        List.filter (fun r => postgis.ST_Contains e (area r) pt_shape) (polygons_rows d))
  end.

Definition points_nearby (point_geojson : pyval) (radius : Q) : M (list SpatialPoint) :=
  let* pt_shape := try_except (fmap_geom (decode_geometry point_geojson))
                     (fun _ => ret None) in
  match pt_shape with
  | None => ret []
  | Some pt_shape =>
      query points (fun e d =>
        List.filter (fun r => postgis.ST_DWithin e (location r) pt_shape radius)
                    (points_rows d))
  end.

(** *** Serialization helpers: the entries of the dict, in its order *)

Definition point_to_dict (point : SpatialPoint)
  : Z * string * option string * pyval :=
  let geojson := geo_interface (location point) in
  let geojson := tuple_to_list geojson in
  (point_id point, point_name point, point_description point, geojson).

Definition polygon_to_dict (polygon : SpatialPolygon)
  : Z * string * option string * pyval :=
  let geojson := geo_interface (area polygon) in
  let geojson := tuple_to_list geojson in
  (polygon_id polygon, polygon_name polygon, polygon_description polygon, geojson).

End crud.

(** ** graphql_app/schema.py *)

Module schema.



Module Point.
Record t : Type := mk
  { id : Z; name : string; description : option string; location : pyval }.
End Point.

Module Polygon.
Record t : Type := mk
  { id : Z; name : string; description : option string; area : pyval }.
End Polygon.

Module User.
Record t : Type := mk { id : Z; username : string }.
End User.

Module Token.
Record t : Type := mk { access_token : jose.token; token_type : string }.
End Token.

(** [info.context["request"].headers.get("authorization")] *)
Record Info : Type := mkInfo { authorization : option (string * jose.token) }.

(** [Point( **d)] on the dict [crud.point_to_dict] builds, and its twin. *)
Definition point_to_dict (point : SpatialPoint) : Point.t :=
  let '(id, name, description, location) := crud.point_to_dict point in
  Point.mk id name description location.

Definition polygon_to_dict (polygon : SpatialPolygon) : Polygon.t :=
  let '(id, name, description, area) := crud.polygon_to_dict polygon in
  Polygon.mk id name description area.

(** Declared by the module; no resolver below calls it. *)
Definition get_current_user (p : process) (info : Info) : M (option User.t) :=
  match authorization info with
  | Some (scheme, token) =>
      if negb (String.eqb scheme "Bearer") then ret None
      else
        try_except
          (let* payload := lift (jose.decode token (crud.SECRET_KEY p) [crud.ALGORITHM]
                                             (utcnow p)) in
           match jose.sub payload with
           | None | Some "" => ret None
           | Some username =>
               let* user := crud.get_user_by_username username in
               match user with
               | Some u => ret (Some (User.mk (user_id u) (models.username u)))
               | None => ret None
               end
           end)
          (fun _ => ret None)
  | None => ret None
  end.

(** *** Queries *)

Module Query.

Definition points (info : Info) : M (list Point.t) :=
  let* rows := crud.get_points in ret (map point_to_dict rows).

Definition polygons (info : Info) : M (list Polygon.t) :=
  let* rows := crud.get_polygons in ret (map polygon_to_dict rows).

Definition point (info : Info) (id : Z) : M (option Point.t) :=
  let* p := crud.get_point id in ret (option_map point_to_dict p).

Definition polygon (info : Info) (id : Z) : M (option Polygon.t) :=
  let* p := crud.get_polygon id in ret (option_map polygon_to_dict p).

Definition points_within_polygon (info : Info) (polygon : json.text) : M (list Point.t) :=
  let* poly_geojson := lift (json.loads polygon) in
  let* rows := crud.points_within_polygon poly_geojson in
  ret (map point_to_dict rows).

Definition polygons_containing_point (info : Info) (point : json.text)
  : M (list Polygon.t) :=
  let* pt_geojson := lift (json.loads point) in
  let* rows := crud.polygons_containing_point pt_geojson in
  ret (map polygon_to_dict rows).

Definition points_nearby (info : Info) (point : json.text) (radius : Q)
  : M (list Point.t) :=
  let* pt_geojson := lift (json.loads point) in
  let* rows := crud.points_nearby pt_geojson radius in
  ret (map point_to_dict rows).

End Query.

(** *** Mutations *)

Module Mutation.

Definition register (info : Info) (username password : string) : M bool :=
  let* user := crud.create_user username password in
  ret (match user with Some _ => true | None => false end).

Definition login (p : process) (info : Info) (username password : string)
  : M (option Token.t) :=
  let* user := crud.authenticate_user username password in
  match user with
  | None => ret None
  | Some u =>
      let access_token :=
        crud.create_access_token p (jose.mkClaims (Some (models.username u)) None) None in
      ret (Some (Token.mk access_token "bearer"))
  end.

Definition create_point (info : Info) (name description : string) (location : json.text)
  : M (option Point.t) :=
  let* loc_geojson := lift (json.loads location) in
  let* p := crud.create_point name description loc_geojson in
  ret (option_map point_to_dict p).

Definition update_point (info : Info) (id : Z) (name description : string)
  (location : json.text) : M (option Point.t) :=
  let* loc_geojson := lift (json.loads location) in
  let* p := crud.update_point id name description loc_geojson in
  ret (option_map point_to_dict p).

Definition delete_point (info : Info) (id : Z) : M bool :=
  crud.delete_point id.

Definition create_polygon (info : Info) (name description : string) (area : json.text)
  : M (option Polygon.t) :=
  let* area_geojson := lift (json.loads area) in
  let* p := crud.create_polygon name description area_geojson in
  ret (option_map polygon_to_dict p).

Definition update_polygon (info : Info) (id : Z) (name description : string)
  (area : json.text) : M (option Polygon.t) :=
  let* area_geojson := lift (json.loads area) in
  let* p := crud.update_polygon id name description area_geojson in
  ret (option_map polygon_to_dict p).

Definition delete_polygon (info : Info) (id : Z) : M bool :=
  crud.delete_polygon id.

End Mutation.

End schema.
End graphql_app.

(** ** What the properties below speak about *)

(** The codec of the spec: [decode] is [decode_geometry]; [encode] is what
    [point_to_schema], [polygon_to_schema] and the two [*_to_dict] helpers
    all compute from a stored geometry. *)
Definition encode (element : WKBElement) : pyval :=
  tuple_to_list (geo_interface element).

(** A request that presents a valid bearer token: a Bearer authorization
    whose token is signed with the process key under HS256, is not expired
    and names a registered user. *)
Definition presents_valid_bearer_token (p : process) (d : Database)
  (request : app.main.Request) : bool :=
  match app.main.authorization request with
  | Some (scheme, jose.Signed payload key algorithm) =>
      String.eqb (shapely.lower scheme) "bearer"
      && String.eqb algorithm "HS256"
      && String.eqb key (app.crud.SECRET_KEY p)
      && match jose.exp payload with
         | Some e => (utcnow p <=? e)%Z
         | None => true
         end
      && match jose.sub payload with
         | Some name => existsb (fun r => String.eqb (username r) name) (users_rows d)
         | None => false
         end
  | _ => false
  end.

(** Rows that satisfy the geometry types of their columns, which is all a
    flush ever lets into the tables. *)
Definition well_typed (d : Database) : bool :=
  forallb (fun r => location_column_accepts (location r)) (points_rows d)
  && forallb (fun r => area_column_accepts (area r)) (polygons_rows d).



Definition registered (name : string) (d : Database) : bool :=
  existsb (fun r => String.eqb (username r) name) (users_rows d).

(** A stored row as the resource surface shows it. *)
Definition point_out (r : SpatialPoint) : schemas.PointOut.t :=
  schemas.PointOut.mk (point_id r) (point_name r) (point_description r)
                      (encode (location r)).

Definition polygon_out (r : SpatialPolygon) : schemas.PolygonOut.t :=
  schemas.PolygonOut.mk (polygon_id r) (polygon_name r) (polygon_description r)
                        (encode (area r)).


(** The state a first registration of [name] leaves behind. *)
Definition after_registering (name password : string) (d : Database) : Database :=
  with_users (users_rows d ++ [mkUser (users_id_seq d + 1) name (passlib.hash password)])
             (users_id_seq d + 1)%Z d.

Definition records_named (name : string) (d : Database) : list User :=
  List.filter (fun r => String.eqb (username r) name) (users_rows d).

(** *** The scenario of tests/test_api.py, and a few stores around it *)

Module scenario.

Definition position (x y : Q) : pyval := PyList [PyNum x; PyNum y].

Definition point_geojson (x y : Q) : pyval :=
  PyDict [("type", PyStr "Point"); ("coordinates", position x y)].

Definition polygon_geojson (rings : list (list (Q * Q))) : pyval :=
  PyDict [("type", PyStr "Polygon");
          ("coordinates",
           PyList (map (fun ring => PyList (map (fun xy => position (fst xy) (snd xy)) ring))
                       rings))].

Definition test_point : pyval := point_geojson 77.0365 38.8977.

Definition test_polygon : pyval :=
  polygon_geojson
    [[(77.0, 38.9); (77.1, 38.9); (77.1, 39.0); (77.0, 39.0); (77.0, 38.9)]%Q].


(** An engine that measures as a geometry column does and knows no
    containment. *)
Definition flat : postgis.engine :=
  postgis.mkEngine
    (fun _ _ => false)
    (fun _ _ => false)
    (fun a b radius =>
       match data a, data b with
       | shapely.Point ca, shapely.Point cb => postgis.planar_dwithin ca cb radius
       | _, _ => false
       end).

Definition unconfigured : process := mkProcess ∅ 1000.

Definition empty : Database := mkDatabase [] [] [] 0 0 0.

Definition apitestuser : User := mkUser 1 "apitestuser" (passlib.hash "apitestpass").

Definition stored_point (id : Z) (x y : Q) : SpatialPoint :=
  mkSpatialPoint id "API Test Point" (Some "A test point")
                 (mkWKB (shapely.Point [x; y]) 4326).

(** One registered user, one point on the equator at longitude 1. *)
Definition one_degree_east : Database :=
  mkDatabase [apitestuser] [stored_point 1 1 0] [] 1 1 0.

(** One registered user and a hundred and one points. *)
Definition crowded : Database :=
  mkDatabase [apitestuser]
             (map (fun i => stored_point (Z.of_nat i) 77.0365 38.8977) (seq 1 101))
             [] 1 101 0.

Definition anonymous : app.main.Request := app.main.mkRequest None.

(** What [login] hands to apitestuser at clock 1000 without configuration. *)
Definition bearer : app.main.Request :=
  app.main.mkRequest
    (Some ("Bearer",
           app.crud.create_access_token unconfigured
             (jose.mkClaims (Some "apitestuser") None) None)).

End scenario.

(** *** Well-formed coordinates *)

(** A position as [shapely.as_coord] lets it through. *)
Definition position_ok (c : shapely.coord) : bool :=
  ((length c =? 2) || (length c =? 3))%nat.

(** A linear ring as [shapely.as_ring] returns it. *)
Definition ring_ok (r : list shapely.coord) : bool :=
  forallb position_ok r
  && shapely.same_dimension r
  && (4 <=? length r)%nat
  && match r, last r with
     | first :: _, Some final => shapely.coord_eqb first final
     | _, _ => false
     end.

(** A geometry as [shapely.shape] returns it. *)
Definition geometry_ok (g : shapely.BaseGeometry) : bool :=
  match g with
  | shapely.Point [] => true
  | shapely.Point c => position_ok c
  | shapely.Polygon [] holes => match holes with [] => true | _ => false end
  | shapely.Polygon shell holes => ring_ok shell && forallb ring_ok holes
  end.


(** *** Consistent states *)

(** Primary keys are unique in their table and none exceeds the last value
    its sequence handed out. *)
Definition well_keyed (d : Database) : Prop :=
  (List.Forall (fun r => (user_id r <= users_id_seq d)%Z) (users_rows d)
   /\ List.NoDup (map user_id (users_rows d)))
  /\ (List.Forall (fun r => (point_id r <= points_id_seq d)%Z) (points_rows d)
      /\ List.NoDup (map point_id (points_rows d)))
  /\ (List.Forall (fun r => (polygon_id r <= polygons_id_seq d)%Z) (polygons_rows d)
      /\ List.NoDup (map polygon_id (polygons_rows d))).

Definition unique_usernames (d : Database) : Prop :=
  List.NoDup (map username (users_rows d)).

(** What models.py declares, as a property of the committed state. *)
Definition consistent (d : Database) : Prop :=
  well_typed d = true /\ well_keyed d /\ unique_usernames d.

(** *** Every call the two applications serve *)

(** The fields of the graph schema with their arguments. *)
Inductive field : Type :=
| QueryPoints
| QueryPolygons
| QueryPoint (id : Z)
| QueryPolygon (id : Z)
| QueryPointsWithinPolygon (polygon : json.text)
| QueryPolygonsContainingPoint (point : json.text)
| QueryPointsNearby (point : json.text) (radius : Q)
| MutationRegister (username password : string)
| MutationLogin (username password : string)
| MutationCreatePoint (name description : string) (location : json.text)
| MutationUpdatePoint (id : Z) (name description : string) (location : json.text)
| MutationDeletePoint (id : Z)
| MutationCreatePolygon (name description : string) (area : json.text)
| MutationUpdatePolygon (id : Z) (name description : string) (area : json.text)
| MutationDeletePolygon (id : Z).

Inductive call : Type :=
| Register (user : schemas.UserCreate)
| Login (username password : string)
| Protected (request : app.main.Request) (op : app.main.operation)
| Graph (info : graphql_app.schema.Info) (f : field).

(** Run to completion, the result dropped. *)
Definition done_M {A : Type} (m : M A) : M unit :=
  let* _ := m in ret tt.

Definition resolve (p : process) (info : graphql_app.schema.Info) (f : field) : M unit :=
  match f with
  | QueryPoints => done_M (graphql_app.schema.Query.points info)
  | QueryPolygons => done_M (graphql_app.schema.Query.polygons info)
  | QueryPoint id => done_M (graphql_app.schema.Query.point info id)
  | QueryPolygon id => done_M (graphql_app.schema.Query.polygon info id)
  | QueryPointsWithinPolygon polygon =>
      done_M (graphql_app.schema.Query.points_within_polygon info polygon)
  | QueryPolygonsContainingPoint point =>
      done_M (graphql_app.schema.Query.polygons_containing_point info point)
  | QueryPointsNearby point radius =>
      done_M (graphql_app.schema.Query.points_nearby info point radius)
  | MutationRegister username password =>
      done_M (graphql_app.schema.Mutation.register info username password)
  | MutationLogin username password =>
      done_M (graphql_app.schema.Mutation.login p info username password)
  | MutationCreatePoint name description location =>
      done_M (graphql_app.schema.Mutation.create_point info name description location)
  | MutationUpdatePoint id name description location =>
      done_M (graphql_app.schema.Mutation.update_point info id name description location)
  | MutationDeletePoint id => done_M (graphql_app.schema.Mutation.delete_point info id)
  | MutationCreatePolygon name description area =>
      done_M (graphql_app.schema.Mutation.create_polygon info name description area)
  | MutationUpdatePolygon id name description area =>
      done_M (graphql_app.schema.Mutation.update_polygon info id name description area)
  | MutationDeletePolygon id => done_M (graphql_app.schema.Mutation.delete_polygon info id)
  end.

Definition serve (p : process) (c : call) : M unit :=
  match c with
  | Register user => done_M (app.main.register user)
  | Login username password => done_M (app.main.login p username password)
  | Protected request op => done_M (app.main.route p request op)
  | Graph info f => resolve p info f
  end.

(** The calls that are meant to read. *)
Definition reads (c : call) : bool :=
  match c with
  | Register _ => false
  | Login _ _ => true
  | Protected _ op =>
      match op with
      | app.main.ListPoints _ _ | app.main.GetPoint _
      | app.main.ListPolygons _ _ | app.main.GetPolygon _
      | app.main.PointsWithinPolygon _ | app.main.PolygonsContainingPoint _
      | app.main.PointsNearby _ => true
      | _ => false
      end
  | Graph _ f =>
      match f with
      | QueryPoints | QueryPolygons | QueryPoint _ | QueryPolygon _
      | QueryPointsWithinPolygon _ | QueryPolygonsContainingPoint _
      | QueryPointsNearby _ _ | MutationLogin _ _ => true
      | _ => false
      end
  end.

Definition is_select (st : statement) : bool :=
  match st with SELECT _ => true | _ => false end.

(** States that calls can lead to from the empty database. *)
Inductive reachable (e : postgis.engine) : Database -> Prop :=
| reachable_empty : reachable e (mkDatabase [] [] [] 0 0 0)
| reachable_serve (d : Database) (p : process) (c : call) :
    reachable e d -> reachable e (state_after (run e d (serve p c))).

(** Session code that, whatever the session it starts in, takes a
    consistent committed state to a consistent one. *)
Definition keeps_consistent {A : Type} (m : M A) : Prop :=
  forall s, consistent (store s) -> consistent (store (snd (m s))).

(** Session code that leaves the committed state and the unit of work as
    they were and sends nothing but SELECTs. *)
Definition only_reads {A : Type} (m : M A) : Prop :=
  forall s, exists sent_here,
    snd (m s) = mkSession (bind s) (store s) (pending s) (log s ++ sent_here)
    /\ forallb is_select sent_here = true.


(** *** Rows after a write *)




Definition after_deleting_point (d : Database) (id : Z) : Database :=
  with_points (List.filter (fun r => negb (point_id r =? id)%Z) (points_rows d))
              (points_id_seq d) d.




Definition after_deleting_polygon (d : Database) (id : Z) : Database :=
  with_polygons (List.filter (fun r => negb (polygon_id r =? id)%Z) (polygons_rows d))
                (polygons_id_seq d) d.

(** The row of a table with a given key. *)
Definition point_with (id : Z) (d : Database) : option SpatialPoint :=
  List.find (fun r => (point_id r =? id)%Z) (points_rows d).

Definition polygon_with (id : Z) (d : Database) : option SpatialPolygon :=
  List.find (fun r => (polygon_id r =? id)%Z) (polygons_rows d).


(** *** The two repositories side by side *)

(** A result of app/crud.py and the result of its twin in graphql_app/crud.py
    that says the same: a row on both sides; nothing found on both sides; a
    handled failure, which the first raises as an HTTPException and the
    second answers with [None]; or the same unhandled exception. *)
Definition same_answer {A : Type} (rest : result (option A)) (graph : result (option A))
  : Prop :=
  match rest, graph with
  | Ok a, Ok b => a = b
  | Raise (HTTPException _ _), Ok None => True
  | Raise err, Raise err' => err = err'
  | _, _ => False
  end.

(** [create_*] of app/crud.py returns the row itself. *)
Definition returned {A : Type} (r : result A) : result (option A) :=
  match r with
  | Ok a => Ok (Some a)
  | Raise err => Raise err
  end.

(** [delete_*] of graphql_app/crud.py returns whether there was a row. *)
Definition was_there {A : Type} (rest : result (option A)) (graph : result bool) : Prop :=
  match rest, graph with
  | Ok (Some _), Ok true => True
  | Ok None, Ok false => True
  | Raise err, Raise err' => err = err'
  | _, _ => False
  end.


(** *** A store with one of each *)

Module furnished.

Definition square : WKBElement :=
  mkWKB (shapely.Polygon
           [[77.0; 38.9]; [77.1; 38.9]; [77.1; 39.0]; [77.0; 39.0]; [77.0; 38.9]]%Q [])
        4326.


Definition stored_polygon : SpatialPolygon :=
  mkSpatialPolygon 1 "API Test Polygon" (Some "A test polygon") square.

(** The user of the test suite, its point and its polygon. *)
Definition store : Database :=
  mkDatabase [scenario.apitestuser] [scenario.stored_point 1 77.0365 38.8977]
             [stored_polygon] 1 1 1.



End furnished.


(** *** Credentials *)

(** The user a username and a password belong to, if any. *)
Definition credentials_match (username password : string) (d : Database) : option User :=
  match List.find (fun r => String.eqb (models.username r) username) (users_rows d) with
  | Some u => if passlib.verify password (hashed_password u) then Some u else None
  | None => None
  end.

(** What [create_access_token] makes for a subject at a given clock. *)
Definition token_for (p : process) (subject : string) : jose.token :=
  jose.Signed (jose.mkClaims (Some subject) (Some (utcnow p + 3600)%Z))
              (app.crud.SECRET_KEY p) "HS256".

Definition bearer_of (token : jose.token) : app.main.Request :=
  app.main.mkRequest (Some ("Bearer", token)).


(** *** What a protected operation hands to OFFSET and LIMIT *)

Definition non_negative_paging (op : app.main.operation) : bool :=
  match op with
  | app.main.ListPoints skip limit | app.main.ListPolygons skip limit =>
      (0 <=? default 0 skip)%Z && (0 <=? default 100 limit)%Z
  | _ => true
  end.

(** *** A record of one surface as the other's type *)

Definition as_point (out : schemas.PointOut.t) : graphql_app.schema.Point.t :=
  graphql_app.schema.Point.mk (schemas.PointOut.id out) (schemas.PointOut.name out)
    (schemas.PointOut.description out) (schemas.PointOut.location out).

Definition as_polygon (out : schemas.PolygonOut.t) : graphql_app.schema.Polygon.t :=
  graphql_app.schema.Polygon.mk (schemas.PolygonOut.id out) (schemas.PolygonOut.name out)
    (schemas.PolygonOut.description out) (schemas.PolygonOut.area out).

(** * Properties *)

(** ** The geometry codec *)

(** A two-dimensional point survives decoding and encoding unchanged. *)
Lemma point_round_trip (x y : Q) :
  exists element,
    decode_geometry (scenario.point_geojson x y) = Ok element
    /\ encode element = scenario.point_geojson x y.
Proof.
  eexists. split; reflexivity.
Qed.

(** [tuple_to_list] turns the tuple it is given into a list and looks no
    further: what was inside stays as it was. *)
Lemma tuple_to_list_is_shallow (items : list pyval) :
  tuple_to_list (PyTuple items) = PyList items.
Proof. reflexivity. Qed.

(** On the wire both surfaces write tuples as arrays, so the serialised
    polygon reads back as the one that was accepted. *)
Lemma test_polygon_round_trip_on_the_wire :
  exists element,
    decode_geometry scenario.test_polygon = Ok element
    /\ json.loads (json.dumps (encode element)) = Ok scenario.test_polygon.
Proof.
  eexists. split; reflexivity.
Qed.

(** C3, evaluated on the polygon of the test suite: decoding succeeds, and
    encoding the stored geometry gives a [coordinates] list that holds a
    tuple of tuples.  The result is not tuple free and Python's equality
    tells it from the polygon that was accepted; the resource and the graph
    serialisers both return it. *)
Theorem C3_polygon_round_trip_keeps_tuples :
  exists element,
    decode_geometry scenario.test_polygon = Ok element
    /\ encode element
       = PyDict [("type", PyStr "Polygon");
                 ("coordinates",
                  PyList [PyTuple [PyTuple [PyNum 77.0; PyNum 38.9];
                                   PyTuple [PyNum 77.1; PyNum 38.9];
                                   PyTuple [PyNum 77.1; PyNum 39.0];
                                   PyTuple [PyNum 77.0; PyNum 39.0];
                                   PyTuple [PyNum 77.0; PyNum 38.9]]])]
    /\ py.tuple_free (encode element) = false
    /\ py.equals (encode element) scenario.test_polygon = false
    /\ app.crud.polygon_to_schema (mkSpatialPolygon 1 "API Test Polygon" None element)
       = Ok (schemas.PolygonOut.mk 1 "API Test Polygon" None (encode element))
    /\ graphql_app.schema.polygon_to_dict
         (mkSpatialPolygon 1 "API Test Polygon" None element)
       = graphql_app.schema.Polygon.mk 1 "API Test Polygon" None (encode element).
Proof.
  eexists. split; [reflexivity|].
  repeat split; reflexivity.
Qed.

(** ** Configuration of the signing key *)

Lemma SECRET_KEY_same_on_both_surfaces (p : process) :
  graphql_app.crud.SECRET_KEY p = app.crud.SECRET_KEY p.
Proof. reflexivity. Qed.

(** C9 (as amended): the signing key is the value of the environment
    variable SECRET_KEY when it is set and the fixed text supersecretkey
    when it is not; either way tokens are issued under that key and a token
    just issued is accepted. *)
Theorem C9_signing_key_from_environment_or_default (p : process) (data : jose.claims) :
  let key := match environ p !! "SECRET_KEY" with
             | Some k => k
             | None => "supersecretkey"
             end in
  app.crud.SECRET_KEY p = key
  /\ graphql_app.crud.SECRET_KEY p = key
  /\ app.crud.create_access_token p data None
     = jose.Signed (jose.mkClaims (jose.sub data) (Some (utcnow p + 3600)%Z)) key "HS256"
  /\ jose.decode (app.crud.create_access_token p data None)
       (app.crud.SECRET_KEY p) [app.crud.ALGORITHM] (utcnow p)
     = Ok (jose.mkClaims (jose.sub data) (Some (utcnow p + 3600)%Z)).
Proof.
  cbv zeta.
  assert (Hkey : app.crud.SECRET_KEY p
                 = match environ p !! "SECRET_KEY" with
                   | Some k => k
                   | None => "supersecretkey"
                   end).
  { unfold app.crud.SECRET_KEY, os_getenv.
    destruct (environ p !! "SECRET_KEY"); reflexivity. }
  split; [exact Hkey|]. split; [exact Hkey|].
  split.
  - unfold app.crud.create_access_token, jose.encode. rewrite Hkey. reflexivity.
  - unfold app.crud.create_access_token, jose.encode, jose.decode, app.crud.ALGORITHM.
    cbn [existsb jose.exp negb orb].
    rewrite String.eqb_refl. cbn [negb orb].
    rewrite String.eqb_refl. cbn [negb].
    unfold app.crud.ACCESS_TOKEN_EXPIRE_MINUTES.
    destruct (Z.ltb_spec (utcnow p + 60 * 60) (utcnow p)) as [Hlt|Hge]; [lia|].
    reflexivity.
Qed.

(** C9, the claim as stated, fails: with no SECRET_KEY in the environment
    the process starts with the key supersecretkey, and the resource
    surface then authenticates a token anyone signed with that text. *)
Lemma C9_unconfigured_process_uses_fixed_key :
  environ scenario.unconfigured !! "SECRET_KEY" = None
  /\ app.crud.SECRET_KEY scenario.unconfigured = "supersecretkey"
  /\ outcome (run scenario.flat scenario.one_degree_east
                (app.main.get_current_user scenario.unconfigured
                   (app.main.mkRequest
                      (Some ("Bearer",
                             jose.Signed (jose.mkClaims (Some "apitestuser") None)
                                         "supersecretkey" "HS256")))))
     = Ok scenario.apitestuser.
Proof.
  repeat split; vm_compute; reflexivity.
Qed.

(** ** Authentication on the graph surface *)

(** Without any Authorization header, [createPoint] writes: the point of
    the test suite becomes the first row of an empty table. *)
Lemma anonymous_create_point_writes :
  points_rows
    (state_after
       (run scenario.flat scenario.empty
          (graphql_app.schema.Mutation.create_point
             (graphql_app.schema.mkInfo None) "API Test Point" "A test point"
             (json.dumps scenario.test_point))))
  = [mkSpatialPoint 1 "API Test Point" (Some "A test point")
                    (mkWKB (shapely.Point [77.0365; 38.8977]%Q) 4326)].
Proof. reflexivity. Qed.


(** ** The predicate queries, run *)

Ltac unfold_session_code :=
  unfold run, outcome, state_after, statements, loaded, added_key, fmap_geom;
  unfold bind_M, try_except, lift, query, mark, commit, rollback, ret, raise, sent,
    SessionLocal.

Section PredicateQueries.

Variables (e : postgis.engine) (d : Database).



Lemma rest_points_nearby_run (geojson : pyval) (radius : Q) :
  run e d (app.crud.points_nearby geojson radius)
  = match decode_geometry geojson with
    | Ok geom =>
        (Ok (List.filter (fun r => postgis.ST_DWithin e (location r) geom radius)
                         (points_rows d)),
         d, [SELECT points])
    | Raise _ => (Raise (HTTPException 422 "Invalid GeoJSON for Point"), d, [])
    end.
Proof.
  unfold app.crud.points_nearby. unfold_session_code.
  destruct (decode_geometry geojson); reflexivity.
Qed.



Lemma graph_points_nearby_run (geojson : pyval) (radius : Q) :
  run e d (graphql_app.crud.points_nearby geojson radius)
  = match decode_geometry geojson with
    | Ok geom =>
        (Ok (List.filter (fun r => postgis.ST_DWithin e (location r) geom radius)
                         (points_rows d)),
         d, [SELECT points])
    | Raise _ => (Ok [], d, [])
    end.
Proof.
  unfold graphql_app.crud.points_nearby. unfold_session_code.
  destruct (decode_geometry geojson); reflexivity.
Qed.

End PredicateQueries.

(** ** Distances *)

Lemma flat_measures_in_geometry_units : postgis.geometry_units scenario.flat.
Proof. intros a b radius. reflexivity. Qed.

(** C1, evaluated where it fails.  The column is geometry-typed, so the
    engine compares the radius with the planar distance of the coordinates.
    A stored point one degree of longitude east of the query point, some
    111 km away along the equator, is returned for a radius of 100: both
    surfaces answer with that one row. *)
Theorem C1_radius_is_compared_with_degrees (e : postgis.engine) :
  postgis.geometry_units e ->
  outcome (run e scenario.one_degree_east
             (app.crud.points_nearby (scenario.point_geojson 0 0) 100))
  = Ok [scenario.stored_point 1 1 0]
  /\ outcome (run e scenario.one_degree_east
                (graphql_app.crud.points_nearby (scenario.point_geojson 0 0) 100))
     = Ok [scenario.stored_point 1 1 0].
Proof.
  intros Hunits.
  assert (Hnear : postgis.ST_DWithin e
                    (location (scenario.stored_point 1 1 0))
                    (mkWKB (shapely.Point [0; 0]%Q) 4326) 100 = true).
  { unfold scenario.stored_point. cbn [location]. rewrite Hunits. reflexivity. }
  rewrite rest_points_nearby_run, graph_points_nearby_run.
  change (decode_geometry (scenario.point_geojson 0 0))
    with (Ok (mkWKB (shapely.Point [0; 0]%Q) 4326)).
  change (points_rows scenario.one_degree_east) with [scenario.stored_point 1 1 0].
  unfold outcome. cbn [fst List.filter].
  rewrite Hnear. split; reflexivity.
Qed.

(** The flat engine measures in geometry units, and there the row is returned. *)
Lemma C1_radius_is_compared_with_degrees_witness :
  postgis.geometry_units scenario.flat
  /\ outcome (run scenario.flat scenario.one_degree_east
                (app.crud.points_nearby (scenario.point_geojson 0 0) 100))
     = Ok [scenario.stored_point 1 1 0].
Proof.
  split.
  - intros a b radius. reflexivity.
  - apply (C1_radius_is_compared_with_degrees scenario.flat).
    intros a b radius. reflexivity.
Defined.

(** ** The authentication gate of the resource surface *)

Lemma bind_M_raise {A B : Type} (m : M A) (k : A -> M B) (s s' : Session) (err : exn) :
  m s = (Raise err, s') -> bind_M m k s = (Raise err, s').
Proof. intros H. unfold bind_M. rewrite H. reflexivity. Qed.

Lemma bind_M_ok {A B : Type} (m : M A) (k : A -> M B) (s s' : Session) (a : A) :
  m s = (Ok a, s') -> bind_M m k s = k a s'.
Proof. intros H. unfold bind_M. rewrite H. reflexivity. Qed.


Lemma outcome_triple {A : Type} (r : result A) (d : Database) (l : list statement) :
  outcome (r, d, l) = r.
Proof. reflexivity. Qed.

Lemma state_after_triple {A : Type} (r : result A) (d : Database) (l : list statement) :
  state_after (r, d, l) = d.
Proof. reflexivity. Qed.

Lemma find_none_existsb {A : Type} (f : A -> bool) (l : list A) :
  existsb f l = false -> List.find f l = None.
Proof.
  induction l as [|x l IH]; cbn; [reflexivity|].
  destruct (f x); cbn; [discriminate|exact IH].
Qed.

Lemma find_some_existsb {A : Type} (f : A -> bool) (l : list A) :
  existsb f l = true -> exists x, List.find f l = Some x /\ f x = true.
Proof.
  induction l as [|x l IH]; cbn; [discriminate|].
  destruct (f x) eqn:Hfx; cbn.
  - intros _. exists x. split; [reflexivity|exact Hfx].
  - exact IH.
Qed.

(** Without a valid bearer token the dependency raises 401; the session
    has seen at most one SELECT on the users table. *)
Lemma get_current_user_rejects (e : postgis.engine) (p : process) (d : Database)
  (request : app.main.Request) :
  presents_valid_bearer_token p d request = false ->
  exists detail sent_so_far,
    app.main.get_current_user p request (SessionLocal e d)
    = (Raise (HTTPException 401 detail), mkSession e d [] sent_so_far)
    /\ (sent_so_far = [] \/ sent_so_far = [SELECT users]).
Proof.
  unfold presents_valid_bearer_token, app.main.get_current_user, app.main.oauth2_scheme.
  destruct (app.main.authorization request) as [[scheme token]|].
  2:{ intros _. do 2 eexists. split; [reflexivity|left; reflexivity]. }
  destruct (String.eqb (shapely.lower scheme) "bearer").
  2:{ intros _. do 2 eexists. split; [reflexivity|left; reflexivity]. }
  destruct token as [payload key algorithm|raw].
  2:{ intros _. do 2 eexists. split; [reflexivity|left; reflexivity]. }
  unfold_session_code. unfold jose.decode, app.crud.ALGORITHM.
  cbn [existsb andb orb negb].
  rewrite orb_false_r.
  destruct (String.eqb algorithm "HS256"); cbn [andb negb].
  2:{ intros _. do 2 eexists. split; [reflexivity|left; reflexivity]. }
  destruct (String.eqb key (app.crud.SECRET_KEY p)); cbn [andb negb].
  2:{ intros _. do 2 eexists. split; [reflexivity|left; reflexivity]. }
  destruct payload as [subject expiry]. cbn [jose.sub jose.exp].
  assert (Hexp : match expiry with
                 | Some x => (utcnow p <=? x)%Z
                 | None => true
                 end = false
                 \/ (match expiry with
                     | Some x => (utcnow p <=? x)%Z
                     | None => true
                     end = true
                     /\ match expiry with
                        | Some x =>
                            if (x <? utcnow p)%Z
                            then @Raise jose.claims JWTError
                            else Ok (jose.mkClaims subject expiry)
                        | None => Ok (jose.mkClaims subject expiry)
                        end = Ok (jose.mkClaims subject expiry))).
  { destruct expiry as [x|]; [|right; split; reflexivity].
    destruct (Z.leb_spec (utcnow p) x) as [Hle|Hgt]; [right|left; reflexivity].
    split; [reflexivity|].
    destruct (Z.ltb_spec x (utcnow p)) as [Hlt|Hge]; [lia|reflexivity]. }
  destruct Hexp as [Hexpired|[Hfresh Hdecoded]].
  - rewrite Hexpired. cbn [andb]. intros _.
    destruct expiry as [x|]; [|discriminate].
    destruct (Z.leb_spec (utcnow p) x) as [Hle|Hgt]; [discriminate|].
    destruct (Z.ltb_spec x (utcnow p)) as [Hlt|Hge]; [|lia].
    do 2 eexists. split; [reflexivity|left; reflexivity].
  - rewrite Hfresh, Hdecoded. cbn [andb jose.sub].
    destruct subject as [name|]; intros Hnone.
    + unfold app.crud.get_user_by_username. unfold_session_code.
      cbn [bind store pending log].
      rewrite (find_none_existsb _ _ Hnone).
      do 2 eexists. split; [reflexivity|right; reflexivity].
    + do 2 eexists. split; [reflexivity|left; reflexivity].
Qed.

Lemma route_stops_when_the_dependency_raises (p : process) (request : app.main.Request)
  (op : app.main.operation) (s s' : Session) (err : exn) :
  app.main.get_current_user p request s = (Raise err, s') ->
  app.main.route p request op s = (Raise err, s').
Proof.
  intros Hgate.
  destruct op; unfold app.main.route, app.main.fmap_M;
    apply bind_M_raise;
    [ unfold app.main.create_point | unfold app.main.list_points
    | unfold app.main.get_point | unfold app.main.update_point
    | unfold app.main.delete_point | unfold app.main.create_polygon
    | unfold app.main.list_polygons | unfold app.main.get_polygon
    | unfold app.main.update_polygon | unfold app.main.delete_polygon
    | unfold app.main.points_within_polygon | unfold app.main.polygons_containing_point
    | unfold app.main.points_nearby ];
    apply bind_M_raise; exact Hgate.
Qed.

(** C4: every protected operation of the resource surface (the ten CRUD
    endpoints and the three predicate queries), invoked without a valid
    bearer token (no header, another scheme, a malformed, wrongly signed or
    expired token, an unknown subject), answers 401, leaves the committed
    state untouched, and has sent nothing but, at most, the one SELECT on
    the users table that looks the subject up: no statement reads or writes
    the points or polygons tables. *)
Theorem C4_no_valid_token_no_repository_access
  (e : postgis.engine) (p : process) (d : Database)
  (request : app.main.Request) (op : app.main.operation) :
  presents_valid_bearer_token p d request = false ->
  app.main.status_code (outcome (run e d (app.main.route p request op))) = 401%Z
  /\ state_after (run e d (app.main.route p request op)) = d
  /\ (statements (run e d (app.main.route p request op)) = []
      \/ statements (run e d (app.main.route p request op)) = [SELECT users])
  /\ Forall (fun st => table_of st = users)
            (statements (run e d (app.main.route p request op))).
Proof.
  intros Hinvalid.
  destruct (get_current_user_rejects e p d request Hinvalid)
    as (detail & sent_so_far & Hgate & Hsent).
  pose proof (route_stops_when_the_dependency_raises p request op _ _ _ Hgate) as Hroute.
  unfold run. rewrite Hroute.
  unfold outcome, state_after, statements. cbn [fst snd store log app.main.status_code].
  repeat split; try assumption.
  destruct Hsent as [-> | ->]; repeat constructor.
Qed.

(** A request without any header, listing the points of the crowded store. *)
Lemma C4_no_valid_token_no_repository_access_witness :
  presents_valid_bearer_token scenario.unconfigured scenario.crowded scenario.anonymous
  = false
  /\ app.main.status_code
       (outcome (run scenario.flat scenario.crowded
                   (app.main.route scenario.unconfigured scenario.anonymous
                      (app.main.ListPoints None None))))
     = 401%Z.
Proof.
  split.
  - reflexivity.
  - apply (C4_no_valid_token_no_repository_access scenario.flat scenario.unconfigured
             scenario.crowded scenario.anonymous (app.main.ListPoints None None)).
    reflexivity.
Defined.

(** ** Creating and updating with a geometry that cannot be stored *)



Section InvalidGeometry.

Variables (e : postgis.engine) (d : Database) (sent_so_far : list statement).

Local Abbreviation s := (mkSession e d [] sent_so_far).

(** *** Resource surface *)







(** *** Graph surface *)







End InvalidGeometry.

(** With a valid bearer token the dependency returns the user after one
    SELECT on the users table. *)
Lemma get_current_user_accepts (e : postgis.engine) (p : process) (d : Database)
  (request : app.main.Request) :
  presents_valid_bearer_token p d request = true ->
  exists user,
    app.main.get_current_user p request (SessionLocal e d)
    = (Ok user, mkSession e d [] [SELECT users]).
Proof.
  unfold presents_valid_bearer_token, app.main.get_current_user, app.main.oauth2_scheme.
  destruct (app.main.authorization request) as [[scheme token]|]; [|discriminate].
  destruct token as [[subject expiry] key algorithm|raw]; [|discriminate].
  cbn [jose.sub jose.exp].
  intros Hvalid.
  apply andb_true_iff in Hvalid as [Hvalid Hknown].
  apply andb_true_iff in Hvalid as [Hvalid Hfresh].
  apply andb_true_iff in Hvalid as [Hvalid Hkey].
  apply andb_true_iff in Hvalid as [Hscheme Halg].
  rewrite Hscheme.
  destruct subject as [name|]; [|discriminate].
  destruct (find_some_existsb _ _ Hknown) as (user & Hfind & _).
  exists user.
  unfold_session_code. unfold jose.decode, app.crud.ALGORITHM, app.crud.get_user_by_username.
  unfold_session_code.
  cbn [existsb]. rewrite Halg, Hkey. cbn [orb negb jose.exp jose.sub].
  assert (Hdecoded : match expiry with
                     | Some x =>
                         if (x <? utcnow p)%Z
                         then @Raise jose.claims JWTError
                         else Ok (jose.mkClaims (Some name) expiry)
                     | None => Ok (jose.mkClaims (Some name) expiry)
                     end = Ok (jose.mkClaims (Some name) expiry)).
  { destruct expiry as [x|]; [|reflexivity].
    apply Z.leb_le in Hfresh.
    destruct (Z.ltb_spec x (utcnow p)) as [Hlt|Hge]; [lia|reflexivity]. }
  rewrite Hdecoded. cbn [jose.sub bind store pending log].
  rewrite Hfind. reflexivity.
Qed.





Section ResourceSurfaceInvalidGeometry.

Variables (e : postgis.engine) (p : process) (d : Database) (request : app.main.Request).

Hypothesis Hvalid : presents_valid_bearer_token p d request = true.





End ResourceSurfaceInvalidGeometry.

Section GraphSurfaceInvalidGeometry.

Variables (e : postgis.engine) (d : Database) (info : graphql_app.schema.Info).





End GraphSurfaceInvalidGeometry.




(** ** Null on the graph surface *)



(** ** Predicate queries with a geometry that does not decode *)



(** ** Registration *)

Lemma filter_none_existsb {A : Type} (f : A -> bool) (l : list A) :
  existsb f l = false -> List.filter f l = [].
Proof.
  induction l as [|x l IH]; cbn; [reflexivity|].
  destruct (f x); cbn; [discriminate|exact IH].
Qed.

Lemma existsb_app_last {A : Type} (f : A -> bool) (l : list A) (x : A) :
  f x = true -> existsb f (l ++ [x]) = true.
Proof.
  intros Hx. rewrite existsb_app. cbn. rewrite Hx.
  destruct (existsb f l); reflexivity.
Qed.

Section Registration.

Variables (e : postgis.engine) (d : Database) (name password : string).

Lemma flush_new_user_taken :
  registered name d = true ->
  flush [NewUser name (passlib.hash password)] d = Raise IntegrityError.
Proof.
  unfold registered. intros Htaken. cbn [flush flush_change]. rewrite Htaken. reflexivity.
Qed.

Lemma flush_new_user_free :
  registered name d = false ->
  flush [NewUser name (passlib.hash password)] d
  = Ok (with_users (users_rows d ++ [mkUser (users_id_seq d + 1) name (passlib.hash password)])
                   (users_id_seq d + 1)%Z d,
        [(users_id_seq d + 1)%Z]).
Proof.
  unfold registered. intros Hfree. cbn [flush flush_change]. rewrite Hfree. reflexivity.
Qed.

(** A taken username: 400 on the resource surface, false on the graph
    surface, and the state is what it was. *)
Lemma rest_register_taken :
  registered name d = true ->
  run e d (app.main.register (schemas.mkUserCreate name password))
  = (Raise (HTTPException 400 "Username already registered"), d, [INSERT users]).
Proof.
  intros Htaken.
  unfold app.main.register, app.crud.create_user, app.crud.get_password_hash.
  unfold_session_code. cbn [schemas.username schemas.password bind store pending log app].
  rewrite (flush_new_user_taken Htaken). reflexivity.
Qed.

Lemma graph_register_taken (info : graphql_app.schema.Info) :
  registered name d = true ->
  run e d (graphql_app.schema.Mutation.register info name password)
  = (Ok false, d, [INSERT users]).
Proof.
  intros Htaken.
  unfold graphql_app.schema.Mutation.register, graphql_app.crud.create_user,
    graphql_app.crud.get_password_hash.
  unfold_session_code. cbn [bind store pending log app].
  rewrite (flush_new_user_taken Htaken). reflexivity.
Qed.

Local Abbreviation registration := (after_registering name password d).

Lemma find_new_user :
  exists row,
    List.find (fun r => (user_id r =? users_id_seq d + 1)%Z)
              (users_rows d ++ [mkUser (users_id_seq d + 1) name (passlib.hash password)])
    = Some row.
Proof.
  destruct (find_some_existsb (fun r => (user_id r =? users_id_seq d + 1)%Z)
              (users_rows d ++ [mkUser (users_id_seq d + 1) name (passlib.hash password)]))
    as (row & Hrow & _).
  - apply existsb_app_last. cbn [user_id]. apply Z.eqb_refl.
  - exists row. exact Hrow.
Qed.

(** A free username: the row is appended with the next key. *)
Lemma rest_register_free :
  registered name d = false ->
  exists row,
    run e d (app.main.register (schemas.mkUserCreate name password))
    = (Ok row, registration, [INSERT users; SELECT users]).
Proof.
  intros Hfree. destruct find_new_user as (row & Hrow). exists row.
  unfold app.main.register, app.crud.create_user, app.crud.get_password_hash,
    app.crud.refresh_user.
  unfold_session_code. cbn [schemas.username schemas.password bind store pending log app].
  rewrite (flush_new_user_free Hfree).
  cbn [bind store pending log app with_users users_rows]. rewrite Hrow. reflexivity.
Qed.

Lemma graph_register_free (info : graphql_app.schema.Info) :
  registered name d = false ->
  run e d (graphql_app.schema.Mutation.register info name password)
  = (Ok true, registration, [INSERT users; SELECT users]).
Proof.
  intros Hfree. destruct find_new_user as (row & Hrow).
  unfold graphql_app.schema.Mutation.register, graphql_app.crud.create_user,
    graphql_app.crud.get_password_hash, graphql_app.crud.refresh_user.
  unfold_session_code. cbn [bind store pending log app].
  rewrite (flush_new_user_free Hfree).
  cbn [bind store pending log app with_users users_rows]. rewrite Hrow. reflexivity.
Qed.

Lemma registered_after_registration : registered name registration = true.
Proof.
  unfold registered, after_registering. cbn [with_users users_rows].
  apply existsb_app_last. cbn [username]. apply String.eqb_refl.
Qed.

Lemma records_named_after_registration :
  registered name d = false ->
  records_named name registration
  = [mkUser (users_id_seq d + 1) name (passlib.hash password)].
Proof.
  unfold registered, records_named, after_registering. intros Hfree.
  cbn [with_users users_rows].
  rewrite List.filter_app, (filter_none_existsb _ _ Hfree).
  cbn [List.filter username app]. rewrite String.eqb_refl. reflexivity.
Qed.

End Registration.

(** C7: registering a username twice.  The first registration succeeds;
    the second fails with 400 on the resource surface (and answers false on
    the graph surface), adds no row and changes none, so that afterwards
    the users table holds exactly one record of that name: the one the
    first registration wrote, with the first password's hash. *)
Theorem C7_second_registration_conflicts
  (e : postgis.engine) (d : Database) (info : graphql_app.schema.Info)
  (name password again : string) :
  registered name d = false ->
  let first := run e d (app.main.register (schemas.mkUserCreate name password)) in
  let second := run e (state_after first)
                    (app.main.register (schemas.mkUserCreate name again)) in
  let graph_first := run e d (graphql_app.schema.Mutation.register info name password) in
  let graph_second := run e (state_after graph_first)
                          (graphql_app.schema.Mutation.register info name again) in
  (app.main.status_code (outcome first) = 200%Z
   /\ outcome second = Raise (HTTPException 400 "Username already registered")
   /\ app.main.status_code (outcome second) = 400%Z
   /\ users_rows (state_after second) = users_rows (state_after first)
   /\ records_named name (state_after second)
      = [mkUser (users_id_seq d + 1) name (passlib.hash password)])
  /\ (outcome graph_first = Ok true
      /\ outcome graph_second = Ok false
      /\ users_rows (state_after graph_second) = users_rows (state_after graph_first)
      /\ records_named name (state_after graph_second)
         = [mkUser (users_id_seq d + 1) name (passlib.hash password)]).
Proof.
  intros Hfree. cbv zeta.
  destruct (rest_register_free e d name password Hfree) as (row & Hfirst).
  rewrite Hfirst, (graph_register_free e d name password info Hfree).
  rewrite !state_after_triple.
  rewrite (rest_register_taken e _ name again
             (registered_after_registration d name password)).
  rewrite (graph_register_taken e _ name again info
             (registered_after_registration d name password)).
  rewrite !state_after_triple, !outcome_triple.
  rewrite (records_named_after_registration d name password Hfree).
  repeat split; reflexivity.
Qed.

(** The user of the test suite, registered twice on an empty store. *)
Lemma C7_second_registration_conflicts_witness :
  registered "apitestuser" scenario.empty = false
  /\ app.main.status_code
       (outcome
          (run scenario.flat
             (state_after
                (run scenario.flat scenario.empty
                   (app.main.register (schemas.mkUserCreate "apitestuser" "apitestpass"))))
             (app.main.register (schemas.mkUserCreate "apitestuser" "another"))))
     = 400%Z.
Proof.
  split.
  - reflexivity.
  - apply (C7_second_registration_conflicts scenario.flat scenario.empty
             (graphql_app.schema.mkInfo None) "apitestuser" "apitestpass" "another").
    reflexivity.
Defined.

(** ** Pagination *)

Lemma point_to_schema_accepted (r : SpatialPoint) :
  location_column_accepts (location r) = true ->
  app.crud.point_to_schema r = Ok (point_out r).
Proof.
  destruct r as [id name description [[c|shell holes] srid]];
    cbn [location]; [|discriminate].
  intros _. reflexivity.
Qed.

Lemma polygon_to_schema_accepted (r : SpatialPolygon) :
  area_column_accepts (area r) = true ->
  app.crud.polygon_to_schema r = Ok (polygon_out r).
Proof.
  destruct r as [id name description [[c|shell holes] srid]];
    cbn [area]; [discriminate|].
  intros _. destruct shell; reflexivity.
Qed.




Section ListEndpoints.

Variables (e : postgis.engine) (p : process) (d : Database) (request : app.main.Request).

Hypothesis Hvalid : presents_valid_bearer_token p d request = true.
Hypothesis Htyped : well_typed d = true.



End ListEndpoints.






(** ** More on the geometry codec *)

Lemma pyval_induction (P : pyval -> Prop) :
  P PyNone ->
  (forall b, P (PyBool b)) ->
  (forall q, P (PyNum q)) ->
  (forall s, P (PyStr s)) ->
  (forall items, List.Forall P items -> P (PyTuple items)) ->
  (forall items, List.Forall P items -> P (PyList items)) ->
  (forall items, List.Forall (fun kv => P (snd kv)) items -> P (PyDict items)) ->
  forall v, P v.
Proof.
  intros HNone HBool HNum HStr HTuple HList HDict.
  fix IH 1.
  intros [|b|q|s|items|items|items].
  - exact HNone.
  - apply HBool.
  - apply HNum.
  - apply HStr.
  - apply HTuple. induction items as [|x xs IHxs]; constructor; [apply IH|exact IHxs].
  - apply HList. induction items as [|x xs IHxs]; constructor; [apply IH|exact IHxs].
  - apply HDict. induction items as [|[k x] xs IHxs]; constructor; [apply IH|exact IHxs].
Qed.

Lemma map_fixed {A : Type} (f : A -> A) (l : list A) :
  List.Forall (fun x => f x = x) l -> map f l = l.
Proof.
  induction 1 as [|x l Hx _ IH]; cbn; [reflexivity|]. rewrite Hx, IH. reflexivity.
Qed.

(** X1: [tuple_to_list] changes nothing in a value without tuples, which
    is what every parsed JSON body is. *)
Theorem X1_tuple_to_list_fixes_tuple_free_values (v : pyval) :
  py.tuple_free v = true -> tuple_to_list v = v.
Proof.
  induction v as [|b|q|s|items IH|items IH|items IH] using pyval_induction;
    cbn [py.tuple_free tuple_to_list]; try reflexivity.
  - discriminate.
  - intros Hfree. f_equal. apply map_fixed.
    rewrite List.forallb_forall in Hfree.
    rewrite List.Forall_forall in IH |- *.
    intros x Hx. apply IH; [exact Hx|apply Hfree, Hx].
  - intros Hfree. f_equal. apply map_fixed.
    rewrite List.forallb_forall in Hfree.
    rewrite List.Forall_forall in IH |- *.
    intros [k x] Hx. cbn [fst snd]. f_equal.
    apply (IH (k, x) Hx), (Hfree (k, x) Hx).
Qed.

Lemma X1_tuple_to_list_fixes_tuple_free_values_witness :
  py.tuple_free scenario.test_polygon = true
  /\ tuple_to_list scenario.test_polygon = scenario.test_polygon.
Proof.
  split.
  - reflexivity.
  - apply (X1_tuple_to_list_fixes_tuple_free_values scenario.test_polygon). reflexivity.
Defined.

(** *** What decoding cannot see

    [shape] reads sequences through their items alone, so a rewriting of a
    value that only turns tuples into lists, at the top or all the way
    down, leaves what it decodes to unchanged. *)

Lemma mapM_map_ext {A B C : Type} (f : B -> option C) (g : A -> B) (h : A -> option C)
  (l : list A) :
  (forall x, f (g x) = h x) -> mapM f (map g l) = mapM h l.
Proof.
  intros Hext. induction l as [|x l IH]; cbn; [reflexivity|].
  rewrite Hext, IH. reflexivity.
Qed.

Lemma forallb_map_ext {A B : Type} (f : B -> bool) (g : A -> B) (h : A -> bool)
  (l : list A) :
  List.Forall (fun x => f (g x) = h x) l -> forallb f (map g l) = forallb h l.
Proof.
  induction 1 as [|x l Hx _ IH]; cbn; [reflexivity|]. rewrite Hx, IH. reflexivity.
Qed.

Section Relisting.

Variable relist : pyval -> pyval.

Hypothesis relist_None : relist PyNone = PyNone.
Hypothesis relist_Bool : forall b, relist (PyBool b) = PyBool b.
Hypothesis relist_Num : forall q, relist (PyNum q) = PyNum q.
Hypothesis relist_Str : forall s, relist (PyStr s) = PyStr s.
Hypothesis relist_List : forall items, relist (PyList items) = PyList (map relist items).
Hypothesis relist_Dict : forall items,
    relist (PyDict items) = PyDict (map (fun kv => (fst kv, relist (snd kv))) items).
Hypothesis relist_Tuple : forall items,
    relist (PyTuple items) = PyList items
    \/ relist (PyTuple items) = PyList (map relist items).

Lemma relist_as_float (v : pyval) : shapely.as_float (relist v) = shapely.as_float v.
Proof using All.
  destruct v as [|b|q|s|items|items|items];
    rewrite ?relist_None, ?relist_Bool, ?relist_Num, ?relist_Str, ?relist_List,
      ?relist_Dict; try reflexivity.
  destruct (relist_Tuple items) as [-> | ->]; reflexivity.
Qed.

Lemma relist_as_coord (v : pyval) : shapely.as_coord (relist v) = shapely.as_coord v.
Proof using All.
  unfold shapely.as_coord.
  destruct v as [|b|q|s|items|items|items];
    rewrite ?relist_None, ?relist_Bool, ?relist_Num, ?relist_Str, ?relist_List,
      ?relist_Dict; try reflexivity.
  - destruct (relist_Tuple items) as [-> | ->]; [reflexivity|].
    cbn [shapely.as_sequence mbind option_bind].
    rewrite (mapM_map_ext _ _ shapely.as_float items relist_as_float). reflexivity.
  - cbn [shapely.as_sequence mbind option_bind].
    rewrite (mapM_map_ext _ _ shapely.as_float items relist_as_float). reflexivity.
Qed.

Lemma relist_as_ring (v : pyval) : shapely.as_ring (relist v) = shapely.as_ring v.
Proof using All.
  unfold shapely.as_ring.
  destruct v as [|b|q|s|items|items|items];
    rewrite ?relist_None, ?relist_Bool, ?relist_Num, ?relist_Str, ?relist_List,
      ?relist_Dict; try reflexivity.
  - destruct (relist_Tuple items) as [-> | ->]; [reflexivity|].
    cbn [shapely.as_sequence mbind option_bind].
    rewrite (mapM_map_ext _ _ shapely.as_coord items relist_as_coord). reflexivity.
  - cbn [shapely.as_sequence mbind option_bind].
    rewrite (mapM_map_ext _ _ shapely.as_coord items relist_as_coord). reflexivity.
Qed.

Lemma relist_is_coordinates_empty (v : pyval) :
  shapely.is_coordinates_empty (relist v) = shapely.is_coordinates_empty v.
Proof using All.
  induction v as [|b|q|s|items IH|items IH|items IH] using pyval_induction;
    rewrite ?relist_None, ?relist_Bool, ?relist_Num, ?relist_Str, ?relist_List,
      ?relist_Dict; try reflexivity.
  - destruct (relist_Tuple items) as [-> | ->]; [reflexivity|].
    cbn [shapely.is_coordinates_empty]. apply forallb_map_ext, IH.
  - cbn [shapely.is_coordinates_empty]. apply forallb_map_ext, IH.
Qed.

Lemma relist_dict_get (key : string) (items : list (string * pyval)) :
  dict_get key (map (fun kv => (fst kv, relist (snd kv))) items)
  = option_map relist (dict_get key items).
Proof.
  induction items as [|[k v] items IH]; cbn; [reflexivity|].
  destruct (String.eqb k key); [reflexivity|exact IH].
Qed.

Lemma relist_shape (v : pyval) : shapely.shape (relist v) = shapely.shape v.
Proof using All.
  destruct v as [|b|q|s|items|items|items];
    rewrite ?relist_None, ?relist_Bool, ?relist_Num, ?relist_Str, ?relist_List,
      ?relist_Dict; try reflexivity.
  { destruct (relist_Tuple items) as [-> | ->]; reflexivity. }
  unfold shapely.shape. cbn [py.get mbind option_bind].
  rewrite !relist_dict_get.
  destruct (dict_get "type" items) as [ty|]; cbn [option_map default from_option id];
    [|reflexivity].
  destruct ty as [|b|q|t|tys|tys|tys];
    rewrite ?relist_None, ?relist_Bool, ?relist_Num, ?relist_Str, ?relist_List,
      ?relist_Dict; try reflexivity.
  2:{ destruct (relist_Tuple tys) as [-> | ->]; reflexivity. }
  destruct (dict_get "coordinates" items) as [coordinates|];
    cbn [option_map mbind option_bind]; [|reflexivity].
  rewrite relist_is_coordinates_empty, relist_as_coord.
  destruct (String.eqb (shapely.lower t) "point"); [reflexivity|].
  destruct (String.eqb (shapely.lower t) "polygon"); [|reflexivity].
  destruct (shapely.is_coordinates_empty coordinates); [reflexivity|].
  assert (Hrings : forall rings : list pyval,
             match map relist rings with
             | [] => None
             | shell :: holes =>
                 shapely.as_ring shell
                 ≫= (fun s => mapM shapely.as_ring holes
                              ≫= (fun hs => Some (shapely.Polygon s hs)))
             end
             = match rings with
               | [] => None
               | shell :: holes =>
                   shapely.as_ring shell
                   ≫= (fun s => mapM shapely.as_ring holes
                                ≫= (fun hs => Some (shapely.Polygon s hs)))
               end).
  { intros [|shell holes]; cbn [map]; [reflexivity|].
    rewrite relist_as_ring, (mapM_map_ext _ _ shapely.as_ring holes relist_as_ring).
    reflexivity. }
  destruct coordinates as [|b|q|s|rings|rings|rings];
    rewrite ?relist_None, ?relist_Bool, ?relist_Num, ?relist_Str, ?relist_List,
      ?relist_Dict; try reflexivity.
  - destruct (relist_Tuple rings) as [-> | ->]; [reflexivity|].
    cbn [shapely.as_sequence mbind option_bind]. apply Hrings.
  - cbn [shapely.as_sequence mbind option_bind]. apply Hrings.
Qed.

End Relisting.

Lemma tuple_to_list_shape (v : pyval) :
  shapely.shape (tuple_to_list v) = shapely.shape v.
Proof.
  apply relist_shape; try reflexivity. intros items. left. reflexivity.
Qed.

(** X2: [tuple_to_list] never changes what a mapping decodes to: decoding
    accepts or refuses the converted value exactly as it does the original,
    and with the same geometry. *)
Theorem X2_tuple_to_list_is_invisible_to_decoding (v : pyval) :
  decode_geometry (tuple_to_list v) = decode_geometry v.
Proof.
  unfold decode_geometry. rewrite tuple_to_list_shape. reflexivity.
Qed.



(** *** [shape] and [mapping] on the geometries that get stored *)

Lemma coord_eqb_refl (c : shapely.coord) : shapely.coord_eqb c c = true.
Proof.
  unfold shapely.coord_eqb. rewrite Nat.eqb_refl. cbn [andb].
  induction c as [|x c IH]; cbn; [reflexivity|].
  rewrite IH, andb_true_r. apply Qeq_bool_iff. reflexivity.
Qed.

Lemma close_ring_closed (r : list shapely.coord) (first : shapely.coord)
  (rest : list shapely.coord) :
  r = first :: rest ->
  exists tail final,
    shapely.close_ring r = first :: tail
    /\ last (shapely.close_ring r) = Some final
    /\ shapely.coord_eqb first final = true.
Proof.
  intros ->. unfold shapely.close_ring.
  destruct (last (first :: rest)) as [final|] eqn:Hlast.
  - destruct (shapely.coord_eqb first final) eqn:Heq.
    + exists rest, final. repeat split; assumption.
    + exists (rest ++ [first]), first. split; [reflexivity|]. split.
      * change (first :: rest ++ [first]) with ((first :: rest) ++ [first]).
        apply last_snoc.
      * apply coord_eqb_refl.
  - apply last_None in Hlast. discriminate.
Qed.

Lemma close_ring_positions (r : list shapely.coord) :
  forallb position_ok r = true -> forallb position_ok (shapely.close_ring r) = true.
Proof.
  intros Hok. unfold shapely.close_ring.
  destruct r as [|first rest]; [reflexivity|].
  destruct (last (first :: rest)) as [final|]; [|exact Hok].
  destruct (shapely.coord_eqb first final); [exact Hok|].
  rewrite forallb_app. apply andb_true_iff. split; [exact Hok|].
  cbn [forallb andb] in Hok |- *.
  apply andb_true_iff in Hok as [-> _]. reflexivity.
Qed.

Lemma close_ring_same_dimension (r : list shapely.coord) :
  shapely.same_dimension r = true ->
  shapely.same_dimension (shapely.close_ring r) = true.
Proof.
  intros Hsame. unfold shapely.close_ring.
  destruct r as [|first rest]; [reflexivity|].
  destruct (last (first :: rest)) as [final|]; [|exact Hsame].
  destruct (shapely.coord_eqb first final); [exact Hsame|].
  cbn [shapely.same_dimension app] in Hsame |- *.
  rewrite forallb_app. apply andb_true_iff. split; [exact Hsame|].
  cbn [forallb andb]. rewrite Nat.eqb_refl. reflexivity.
Qed.

Lemma mapM_forallb {A B : Type} (f : A -> option B) (ok : B -> bool)
  (l : list A) (k : list B) :
  (forall x y, f x = Some y -> ok y = true) ->
  mapM f l = Some k -> forallb ok k = true.
Proof.
  intros Hok Hmap. apply mapM_Some in Hmap.
  induction Hmap as [|x y l k Hxy _ IH]; cbn; [reflexivity|].
  rewrite (Hok x y Hxy), IH. reflexivity.
Qed.

Lemma as_coord_ok (v : pyval) (c : shapely.coord) :
  shapely.as_coord v = Some c -> position_ok c = true.
Proof.
  unfold shapely.as_coord, position_ok.
  destruct (shapely.as_sequence v) as [items|]; [|discriminate].
  cbn [mbind option_bind].
  destruct (mapM shapely.as_float items) as [c'|]; [|discriminate].
  cbn [mbind option_bind].
  destruct ((length c' =? 2)%nat || (length c' =? 3)%nat) eqn:Hlen; [|discriminate].
  intros [= <-]. exact Hlen.
Qed.

Lemma as_ring_ok (v : pyval) (r : list shapely.coord) :
  shapely.as_ring v = Some r -> ring_ok r = true.
Proof.
  unfold shapely.as_ring.
  destruct (shapely.as_sequence v) as [items|]; [|discriminate].
  cbn [mbind option_bind].
  destruct (mapM shapely.as_coord items) as [r0|] eqn:Hmap; [|discriminate].
  cbn [mbind option_bind].
  destruct (shapely.same_dimension r0) eqn:Hsame; [|discriminate].
  destruct (4 <=? length (shapely.close_ring r0))%nat eqn:Hlen; [|discriminate].
  cbn [andb]. intros [= <-].
  unfold ring_ok.
  rewrite (close_ring_positions r0 (mapM_forallb _ _ _ _ as_coord_ok Hmap)).
  rewrite (close_ring_same_dimension r0 Hsame), Hlen. cbn [andb].
  destruct r0 as [|first rest]; [discriminate|].
  destruct (close_ring_closed (first :: rest) first rest eq_refl)
    as (tail & final & -> & Hlast & Heq).
  cbn [last] in Hlast |- *. rewrite Hlast. exact Heq.
Qed.

Lemma shape_ok (v : pyval) (g : shapely.BaseGeometry) :
  shapely.shape v = Some g -> geometry_ok g = true.
Proof.
  unfold shapely.shape.
  destruct (py.get v "type") as [[|b|q|t|tys|tys|tys]|]; try discriminate.
  cbn [mbind option_bind].
  destruct (dict_get "coordinates" _) as [coordinates|]; [|discriminate].
  cbn [mbind option_bind].
  destruct (String.eqb (shapely.lower t) "point").
  - destruct (shapely.is_coordinates_empty coordinates); [intros [= <-]; reflexivity|].
    destruct (shapely.as_coord coordinates) as [c|] eqn:Hc; [|discriminate].
    intros [= <-]. cbn [geometry_ok].
    pose proof (as_coord_ok _ _ Hc) as Hok. destruct c; [reflexivity|exact Hok].
  - destruct (String.eqb (shapely.lower t) "polygon"); [|discriminate].
    destruct (shapely.is_coordinates_empty coordinates); [intros [= <-]; reflexivity|].
    destruct (shapely.as_sequence coordinates) as [[|shell holes]|]; try discriminate.
    cbn [mbind option_bind].
    destruct (shapely.as_ring shell) as [s|] eqn:Hs; [|discriminate].
    cbn [mbind option_bind].
    destruct (mapM shapely.as_ring holes) as [hs|] eqn:Hhs; [|discriminate].
    intros [= <-]. cbn [geometry_ok].
    pose proof (as_ring_ok _ _ Hs) as Hok.
    destruct s as [|first rest]; [discriminate Hok|].
    rewrite Hok, (mapM_forallb _ _ _ _ as_ring_ok Hhs). reflexivity.
Qed.

Lemma mapM_as_float_nums (c : shapely.coord) :
  mapM shapely.as_float (map PyNum c) = Some c.
Proof.
  induction c as [|x c IH]; cbn; [reflexivity|]. rewrite IH. reflexivity.
Qed.

Lemma as_coord_tuple (c : shapely.coord) :
  position_ok c = true -> shapely.as_coord (shapely.coord_tuple c) = Some c.
Proof.
  intros Hok. unfold shapely.as_coord, shapely.coord_tuple.
  cbn [shapely.as_sequence mbind option_bind].
  rewrite mapM_as_float_nums. cbn [mbind option_bind].
  unfold position_ok in Hok. rewrite Hok. reflexivity.
Qed.

Lemma mapM_as_coord_tuples (r : list shapely.coord) :
  forallb position_ok r = true ->
  mapM shapely.as_coord (map shapely.coord_tuple r) = Some r.
Proof.
  induction r as [|c r IH]; cbn [forallb map]; [reflexivity|].
  intros Hok. apply andb_true_iff in Hok as [Hc Hr].
  cbn [mapM]. rewrite (as_coord_tuple c Hc). cbn [mbind option_bind].
  rewrite (IH Hr). reflexivity.
Qed.

Lemma as_ring_tuple (r : list shapely.coord) :
  ring_ok r = true -> shapely.as_ring (shapely.ring_tuple r) = Some r.
Proof.
  unfold ring_ok. intros Hok.
  apply andb_true_iff in Hok as [Hok Hclosed].
  apply andb_true_iff in Hok as [Hok Hlen].
  apply andb_true_iff in Hok as [Hpos Hsame].
  unfold shapely.as_ring, shapely.ring_tuple.
  cbn [shapely.as_sequence mbind option_bind].
  rewrite (mapM_as_coord_tuples r Hpos). cbn [mbind option_bind].
  assert (Hfixed : shapely.close_ring r = r).
  { unfold shapely.close_ring. destruct r as [|first rest]; [reflexivity|].
    destruct (last (first :: rest)) as [final|]; [|reflexivity].
    rewrite Hclosed. reflexivity. }
  rewrite Hfixed, Hsame, Hlen. reflexivity.
Qed.

Lemma mapM_as_ring_tuples (rs : list (list shapely.coord)) :
  forallb ring_ok rs = true ->
  mapM shapely.as_ring (map shapely.ring_tuple rs) = Some rs.
Proof.
  induction rs as [|r rs IH]; cbn [forallb map]; [reflexivity|].
  intros Hok. apply andb_true_iff in Hok as [Hr Hrs].
  cbn [mapM]. rewrite (as_ring_tuple r Hr). cbn [mbind option_bind].
  rewrite (IH Hrs). reflexivity.
Qed.

Lemma shape_mapping (g : shapely.BaseGeometry) :
  geometry_ok g = true -> shapely.shape (shapely.mapping g) = Some g.
Proof.
  destruct g as [c|shell holes]; cbn [geometry_ok shapely.mapping].
  - destruct c as [|x c]; [reflexivity|]. intros Hok.
    unfold shapely.shape. cbn -[shapely.as_coord shapely.coord_tuple].
    change (PyTuple (PyNum x :: map PyNum c)) with (shapely.coord_tuple (x :: c)).
    rewrite (as_coord_tuple _ Hok). reflexivity.
  - destruct shell as [|first rest].
    + destruct holes; [reflexivity|discriminate].
    + intros Hok. apply andb_true_iff in Hok as [Hshell Hholes].
      assert (Hfirst : exists x c, first = x :: c).
      { unfold ring_ok in Hshell. cbn [forallb] in Hshell.
        destruct first as [|x c]; [discriminate|]. exists x, c. reflexivity. }
      destruct Hfirst as (x & c & ->).
      unfold shapely.shape.
      cbn -[shapely.as_ring shapely.ring_tuple mapM].
      change (PyTuple (PyTuple (PyNum x :: map PyNum c) :: map shapely.coord_tuple rest))
        with (shapely.ring_tuple ((x :: c) :: rest)).
      rewrite (as_ring_tuple _ Hshell). cbn [mbind option_bind].
      rewrite (mapM_as_ring_tuples _ Hholes). reflexivity.
Qed.

Lemma decode_geometry_shape (geojson : pyval) (x : WKBElement) :
  decode_geometry geojson = Ok x ->
  shapely.shape geojson = Some (data x) /\ srid x = 4326%Z.
Proof.
  unfold decode_geometry.
  destruct (shapely.shape geojson) as [g|]; [|discriminate].
  intros [= <-]. split; reflexivity.
Qed.

Lemma decode_encode (x : WKBElement) :
  geometry_ok (data x) = true -> srid x = 4326%Z -> decode_geometry (encode x) = Ok x.
Proof.
  intros Hok Hsrid.
  unfold decode_geometry, encode, geo_interface, to_shape.
  rewrite tuple_to_list_shape, (shape_mapping _ Hok).
  destruct x as [g n]. cbn [srid] in Hsrid. subst n. reflexivity.
Qed.

(** X3: what was decoded can be encoded and decoded again without change:
    for every mapping that decodes to a stored geometry, decoding the
    encoded geometry gives that same geometry.  The tuples the encoder
    leaves inside a polygon do not get in the way. *)
Theorem X3_decode_encode_decode (geojson : pyval) (x : WKBElement) :
  decode_geometry geojson = Ok x -> decode_geometry (encode x) = Ok x.
Proof.
  intros Hdecode.
  destruct (decode_geometry_shape _ _ Hdecode) as [Hshape Hsrid].
  apply decode_encode; [exact (shape_ok _ _ Hshape)|exact Hsrid].
Qed.

Lemma X3_decode_encode_decode_witness :
  decode_geometry scenario.test_polygon
  = Ok (mkWKB (shapely.Polygon
                 [[77.0; 38.9]; [77.1; 38.9]; [77.1; 39.0]; [77.0; 39.0]; [77.0; 38.9]]%Q
                 []) 4326)
  /\ decode_geometry
       (encode (mkWKB (shapely.Polygon
                         [[77.0; 38.9]; [77.1; 38.9]; [77.1; 39.0]; [77.0; 39.0];
                          [77.0; 38.9]]%Q
                         []) 4326))
     = Ok (mkWKB (shapely.Polygon
                    [[77.0; 38.9]; [77.1; 38.9]; [77.1; 39.0]; [77.0; 39.0]; [77.0; 38.9]]%Q
                    []) 4326).
Proof.
  split.
  - reflexivity.
  - apply (X3_decode_encode_decode scenario.test_polygon). reflexivity.
Defined.



Lemma tuple_free_nums (c : shapely.coord) : forallb py.tuple_free (map PyNum c) = true.
Proof. induction c as [|x c IH]; cbn; [reflexivity|exact IH]. Qed.

(** X5: how far the encoder normalises.  Every stored point, whatever its
    ordinates, is encoded with its coordinates as a plain list and without
    a tuple anywhere; every stored polygon with a shell is encoded with its
    rings, and the positions in them, still tuples. *)
Theorem X5_encoder_normalises_points_not_polygons
  (c : shapely.coord) (first : shapely.coord) (rest : list shapely.coord)
  (holes : list (list shapely.coord)) (n : Z) :
  (encode (mkWKB (shapely.Point c) n)
   = PyDict [("type", PyStr "Point"); ("coordinates", PyList (map PyNum c))]
   /\ py.tuple_free (encode (mkWKB (shapely.Point c) n)) = true)
  /\ (encode (mkWKB (shapely.Polygon (first :: rest) holes) n)
      = PyDict [("type", PyStr "Polygon");
                ("coordinates",
                 PyList (map shapely.ring_tuple ((first :: rest) :: holes)))]
      /\ py.tuple_free (encode (mkWKB (shapely.Polygon (first :: rest) holes) n)) = false).
Proof.
  split; split; try reflexivity.
  cbn. rewrite tuple_free_nums. reflexivity.
Qed.

(** ** What a commit keeps *)

Lemma NoDup_snoc_fresh {A : Type} (l : list A) (x : A) :
  List.NoDup l -> ~ List.In x l -> List.NoDup (l ++ [x]).
Proof.
  intros Hl Hx. apply NoDup_ListNoDup. apply NoDup_app.
  split; [apply NoDup_ListNoDup, Hl|].
  split; [|apply NoDup_singleton].
  intros y Hy Hy'. apply list_elem_of_singleton in Hy'. subst y.
  apply Hx. apply list_elem_of_In. exact Hy.
Qed.

Lemma key_above_is_fresh {A : Type} (key : A -> Z) (rows : list A) (seq : Z) :
  List.Forall (fun r => (key r <= seq)%Z) rows -> ~ List.In (seq + 1)%Z (map key rows).
Proof.
  intros Hle Hin. apply List.in_map_iff in Hin as (r & Hr & Hin).
  rewrite List.Forall_forall in Hle. specialize (Hle r Hin). lia.
Qed.

Lemma keys_after_insert {A : Type} (key : A -> Z) (rows : list A) (seq : Z) (row : A) :
  key row = (seq + 1)%Z ->
  List.Forall (fun r => (key r <= seq)%Z) rows /\ List.NoDup (map key rows) ->
  List.Forall (fun r => (key r <= seq + 1)%Z) (rows ++ [row])
  /\ List.NoDup (map key (rows ++ [row])).
Proof.
  intros Hrow [Hle Hnodup]. split.
  - apply List.Forall_app. split.
    + eapply List.Forall_impl; [|exact Hle]. cbn. intros; lia.
    + constructor; [lia|constructor].
  - rewrite List.map_app. cbn [map]. rewrite Hrow.
    apply NoDup_snoc_fresh; [exact Hnodup|]. apply key_above_is_fresh, Hle.
Qed.

Lemma keys_after_update {A : Type} (key : A -> Z) (f : A -> A) (test : A -> bool)
  (rows : list A) (seq : Z) :
  (forall r, key (f r) = key r) ->
  List.Forall (fun r => (key r <= seq)%Z) rows /\ List.NoDup (map key rows) ->
  List.Forall (fun r => (key r <= seq)%Z) (map (fun r => if test r then f r else r) rows)
  /\ List.NoDup (map key (map (fun r => if test r then f r else r) rows)).
Proof.
  intros Hkey [Hle Hnodup].
  assert (Hsame : forall r, key (if test r then f r else r) = key r).
  { intros r. destruct (test r); [apply Hkey|reflexivity]. }
  split.
  - apply List.Forall_map. eapply List.Forall_impl; [|exact Hle].
    cbn. intros r Hr. rewrite Hsame. exact Hr.
  - rewrite List.map_map. erewrite List.map_ext; [exact Hnodup|]. exact Hsame.
Qed.

Lemma NoDup_map_filter {A B : Type} (key : A -> B) (test : A -> bool) (rows : list A) :
  List.NoDup (map key rows) -> List.NoDup (map key (List.filter test rows)).
Proof.
  induction rows as [|r rows IH]; cbn [map List.filter]; [intros H; exact H|].
  intros Hnodup. inversion Hnodup as [|? ? Hfresh Hrest]; subst.
  destruct (test r); [|apply IH, Hrest].
  cbn [map]. constructor; [|apply IH, Hrest].
  intros Hin. apply Hfresh.
  apply List.in_map_iff in Hin as (r' & Hr' & Hin).
  apply List.filter_In in Hin as [Hin _].
  apply List.in_map_iff. exists r'. split; assumption.
Qed.

Lemma keys_after_delete {A : Type} (key : A -> Z) (test : A -> bool)
  (rows : list A) (seq : Z) :
  List.Forall (fun r => (key r <= seq)%Z) rows /\ List.NoDup (map key rows) ->
  List.Forall (fun r => (key r <= seq)%Z) (List.filter test rows)
  /\ List.NoDup (map key (List.filter test rows)).
Proof.
  intros [Hle Hnodup]. split.
  - rewrite List.Forall_forall in Hle |- *. intros r Hr.
    apply List.filter_In in Hr as [Hr _]. apply Hle, Hr.
  - apply NoDup_map_filter, Hnodup.
Qed.

Lemma forallb_snoc {A : Type} (ok : A -> bool) (rows : list A) (row : A) :
  forallb ok rows = true -> ok row = true -> forallb ok (rows ++ [row]) = true.
Proof.
  intros Hrows Hrow. rewrite forallb_app, Hrows. cbn. rewrite Hrow. reflexivity.
Qed.

Lemma forallb_update {A : Type} (ok : A -> bool) (f : A -> A) (test : A -> bool)
  (rows : list A) :
  (forall r, ok r = true -> ok (f r) = true) ->
  forallb ok rows = true ->
  forallb ok (map (fun r => if test r then f r else r) rows) = true.
Proof.
  intros Hf. induction rows as [|r rows IH]; cbn [map forallb]; [reflexivity|].
  intros Hok. apply andb_true_iff in Hok as [Hr Hrows].
  rewrite (IH Hrows), andb_true_r.
  destruct (test r); [apply Hf, Hr|exact Hr].
Qed.

Lemma forallb_filter {A : Type} (ok test : A -> bool) (rows : list A) :
  forallb ok rows = true -> forallb ok (List.filter test rows) = true.
Proof.
  induction rows as [|r rows IH]; cbn [List.filter forallb]; [reflexivity|].
  intros Hok. apply andb_true_iff in Hok as [Hr Hrows].
  destruct (test r); [|apply IH, Hrows].
  cbn [forallb]. rewrite Hr, (IH Hrows). reflexivity.
Qed.

Lemma not_registered_not_in (name : string) (rows : list User) :
  existsb (fun r => String.eqb (username r) name) rows = false ->
  ~ List.In name (map username rows).
Proof.
  intros Hfree Hin. apply List.in_map_iff in Hin as (r & Hr & Hin).
  assert (Htaken : existsb (fun r => String.eqb (username r) name) rows = true).
  { apply List.existsb_exists. exists r. split; [exact Hin|].
    rewrite Hr. apply String.eqb_refl. }
  congruence.
Qed.

(** One flushed change keeps the state consistent. *)
Lemma flush_change_consistent (c : change) (d d' : Database) (keys : list Z) :
  flush_change c d = Ok (d', keys) -> consistent d -> consistent d'.
Proof.
  unfold consistent, well_typed, well_keyed, unique_usernames.
  intros Hflush (Htyped & (Husers & Hpoints & Hpolygons) & Hnames).
  apply andb_true_iff in Htyped as [Htp Htg].
  destruct c as [name hashed|name description geom|name description geom
                |id name|id description|id geom
                |id name|id description|id geom|id|id];
    cbn [flush_change] in Hflush;
    try (destruct (existsb _ (users_rows d)) eqn:Hfree; [discriminate|]);
    try (destruct (location_column_accepts geom) eqn:Haccepts; [|discriminate]);
    try (destruct (area_column_accepts geom) eqn:Haccepts; [|discriminate]);
    injection Hflush as <- _;
    cbn [with_users with_points with_polygons users_rows points_rows polygons_rows
           users_id_seq points_id_seq polygons_id_seq];
    unfold update_point_row, update_polygon_row;
    refine (conj _ (conj (conj _ (conj _ _)) _));
    try assumption;
    try (apply andb_true_iff; split; try assumption).
  - apply (keys_after_insert user_id); [reflexivity|exact Husers].
  - rewrite List.map_app. cbn [map username].
    apply NoDup_snoc_fresh; [exact Hnames|]. apply not_registered_not_in, Hfree.
  - apply forallb_snoc; assumption.
  - apply (keys_after_insert point_id); [reflexivity|exact Hpoints].
  - apply forallb_snoc; assumption.
  - apply (keys_after_insert polygon_id); [reflexivity|exact Hpolygons].
  - apply (forallb_update (fun r => location_column_accepts (location r)));
      [intros r Hr; exact Hr|exact Htp].
  - apply (keys_after_update point_id); [reflexivity|exact Hpoints].
  - apply (forallb_update (fun r => location_column_accepts (location r)));
      [intros r Hr; exact Hr|exact Htp].
  - apply (keys_after_update point_id); [reflexivity|exact Hpoints].
  - apply (forallb_update (fun r => location_column_accepts (location r)));
      [intros r _; exact Haccepts|exact Htp].
  - apply (keys_after_update point_id); [reflexivity|exact Hpoints].
  - apply (forallb_update (fun r => area_column_accepts (area r)));
      [intros r Hr; exact Hr|exact Htg].
  - apply (keys_after_update polygon_id); [reflexivity|exact Hpolygons].
  - apply (forallb_update (fun r => area_column_accepts (area r)));
      [intros r Hr; exact Hr|exact Htg].
  - apply (keys_after_update polygon_id); [reflexivity|exact Hpolygons].
  - apply (forallb_update (fun r => area_column_accepts (area r)));
      [intros r _; exact Haccepts|exact Htg].
  - apply (keys_after_update polygon_id); [reflexivity|exact Hpolygons].
  - apply (forallb_filter (fun r => location_column_accepts (location r))), Htp.
  - apply (keys_after_delete point_id), Hpoints.
  - apply (forallb_filter (fun r => area_column_accepts (area r))), Htg.
  - apply (keys_after_delete polygon_id), Hpolygons.
Qed.

Lemma flush_consistent (cs : list change) (d d' : Database) (keys : list Z) :
  flush cs d = Ok (d', keys) -> consistent d -> consistent d'.
Proof.
  revert d d' keys. induction cs as [|c cs IH]; intros d d' keys; cbn [flush].
  - intros [= <- _] H. exact H.
  - destruct (flush_change c d) as [[d1 keys1]|err] eqn:Hc; [|discriminate].
    destruct (flush cs d1) as [[d2 keys2]|err] eqn:Hcs; [|discriminate].
    intros [= <- _] Hd. exact (IH _ _ _ Hcs (flush_change_consistent _ _ _ _ Hc Hd)).
Qed.

(** ** Session code, piece by piece *)

Section Keeping.

Context {A B : Type}.

Lemma keeps_ret (a : A) : keeps_consistent (ret a).
Proof. intros s H. exact H. Qed.

Lemma keeps_raise (err : exn) : keeps_consistent (@raise A err).
Proof. intros s H. exact H. Qed.

Lemma keeps_lift (r : result A) : keeps_consistent (lift r).
Proof. intros s H. exact H. Qed.

Lemma keeps_query (t : table) (answer : postgis.engine -> Database -> A) :
  keeps_consistent (query t answer).
Proof. intros s H. exact H. Qed.

Lemma keeps_bind (m : M A) (k : A -> M B) :
  keeps_consistent m -> (forall a, keeps_consistent (k a)) ->
  keeps_consistent (bind_M m k).
Proof.
  intros Hm Hk s Hs. unfold bind_M. specialize (Hm s Hs).
  destruct (m s) as [[a|err] s']; cbn [snd] in Hm |- *; [apply Hk, Hm|exact Hm].
Qed.

Lemma keeps_try_except (body : M A) (handler : exn -> M A) :
  keeps_consistent body -> (forall err, keeps_consistent (handler err)) ->
  keeps_consistent (try_except body handler).
Proof.
  intros Hbody Hhandler s Hs. unfold try_except. specialize (Hbody s Hs).
  destruct (body s) as [[a|err] s']; cbn [snd] in Hbody |- *;
    [exact Hbody|apply Hhandler, Hbody].
Qed.

End Keeping.

Lemma keeps_mark (c : change) : keeps_consistent (mark c).
Proof. intros s H. exact H. Qed.

Lemma keeps_rollback : keeps_consistent rollback.
Proof. intros s H. exact H. Qed.

Lemma keeps_commit : keeps_consistent commit.
Proof.
  intros s Hs. unfold commit.
  destruct (flush (pending s) (store s)) as [[d keys]|err] eqn:Hflush; cbn [snd store].
  - exact (flush_consistent _ _ _ _ Hflush Hs).
  - exact Hs.
Qed.

Ltac keeps_step :=
  first
    [ apply keeps_ret | apply keeps_raise | apply keeps_lift | apply keeps_query
    | apply keeps_mark | apply keeps_rollback | apply keeps_commit
    | apply keeps_bind; [|intros ?]
    | apply keeps_try_except; [|intros ?]
    | match goal with
      | |- keeps_consistent (match ?x with _ => _ end) => destruct x
      | |- keeps_consistent (if ?x then _ else _) => destruct x
      end ].

Ltac unfold_api :=
  unfold serve, resolve, done_M, app.main.route, app.main.fmap_M,
    app.main.register, app.main.login,
    app.main.create_point, app.main.list_points, app.main.get_point,
    app.main.update_point, app.main.delete_point,
    app.main.create_polygon, app.main.list_polygons, app.main.get_polygon,
    app.main.update_polygon, app.main.delete_polygon,
    app.main.points_within_polygon, app.main.polygons_containing_point,
    app.main.points_nearby,
    app.main.get_current_user, app.main.oauth2_scheme, app.main.body, app.main.found,
    graphql_app.schema.Query.points, graphql_app.schema.Query.polygons,
    graphql_app.schema.Query.point, graphql_app.schema.Query.polygon,
    graphql_app.schema.Query.points_within_polygon,
    graphql_app.schema.Query.polygons_containing_point,
    graphql_app.schema.Query.points_nearby,
    graphql_app.schema.Mutation.register, graphql_app.schema.Mutation.login,
    graphql_app.schema.Mutation.create_point, graphql_app.schema.Mutation.update_point,
    graphql_app.schema.Mutation.delete_point,
    graphql_app.schema.Mutation.create_polygon,
    graphql_app.schema.Mutation.update_polygon,
    graphql_app.schema.Mutation.delete_polygon;
  unfold app.crud.create_user, app.crud.authenticate_user,
    app.crud.create_point, app.crud.get_points, app.crud.update_point,
    app.crud.delete_point, app.crud.refresh_point,
    app.crud.create_polygon, app.crud.get_polygons, app.crud.update_polygon,
    app.crud.delete_polygon, app.crud.refresh_polygon, app.crud.refresh_user,
    app.crud.points_within_polygon, app.crud.polygons_containing_point,
    app.crud.points_nearby,
    graphql_app.crud.create_user, graphql_app.crud.authenticate_user,
    graphql_app.crud.create_point, graphql_app.crud.get_points,
    graphql_app.crud.update_point, graphql_app.crud.delete_point,
    graphql_app.crud.refresh_point,
    graphql_app.crud.create_polygon, graphql_app.crud.get_polygons,
    graphql_app.crud.update_polygon, graphql_app.crud.delete_polygon,
    graphql_app.crud.refresh_polygon, graphql_app.crud.refresh_user,
    graphql_app.crud.points_within_polygon, graphql_app.crud.polygons_containing_point,
    graphql_app.crud.points_nearby;
  unfold app.crud.get_point, app.crud.get_polygon, app.crud.get_user_by_username,
    graphql_app.crud.get_point, graphql_app.crud.get_polygon,
    graphql_app.crud.get_user_by_username, added_key, loaded, fmap_geom.

Lemma serve_keeps_consistent (p : process) (c : call) : keeps_consistent (serve p c).
Proof.
  destruct c as [user|username password|request op|info f];
    [ | | destruct op | destruct f ];
    unfold_api; repeat keeps_step.
Qed.

(** X6: every call that either application serves (registration, login,
    the thirteen protected endpoints, the fifteen fields of the graph
    schema), with any arguments and any credentials, takes a consistent
    state to a consistent state: usernames stay unique, primary keys stay
    unique and below their sequence, and every stored location is a point
    and every stored area a polygon in SRID 4326. *)
Theorem X6_every_call_keeps_the_state_consistent
  (e : postgis.engine) (p : process) (d : Database) (c : call) :
  consistent d -> consistent (state_after (run e d (serve p c))).
Proof.
  intros Hd. unfold state_after, run.
  pose proof (serve_keeps_consistent p c (SessionLocal e d) Hd) as Hkept.
  destruct (serve p c (SessionLocal e d)) as [r s]. exact Hkept.
Qed.

Lemma empty_is_consistent : consistent (mkDatabase [] [] [] 0 0 0).
Proof.
  split; [reflexivity|]. split; [|constructor].
  repeat split; constructor.
Qed.

Lemma X6_every_call_keeps_the_state_consistent_witness :
  consistent scenario.empty
  /\ consistent
       (state_after
          (run scenario.flat scenario.empty
             (serve scenario.unconfigured
                (Register (schemas.mkUserCreate "apitestuser" "apitestpass"))))).
Proof.
  split.
  - split; [reflexivity|]. split; [|constructor]. repeat split; constructor.
  - apply (X6_every_call_keeps_the_state_consistent scenario.flat scenario.unconfigured
             scenario.empty (Register (schemas.mkUserCreate "apitestuser" "apitestpass"))).
    split; [reflexivity|]. split; [|constructor]. repeat split; constructor.
Defined.

(** X7: every state the applications can reach from the empty database is
    consistent, so the list endpoints and the serialisers only ever meet
    rows of the right geometry type and at most one user of a name. *)
Theorem X7_reachable_states_are_consistent (e : postgis.engine) (d : Database) :
  reachable e d -> consistent d.
Proof.
  induction 1 as [|d p c _ IH].
  - exact empty_is_consistent.
  - unfold state_after, run.
    pose proof (serve_keeps_consistent p c (SessionLocal e d) IH) as Hkept.
    destruct (serve p c (SessionLocal e d)) as [r s]. exact Hkept.
Qed.

Lemma X7_reachable_states_are_consistent_witness :
  reachable scenario.flat
    (state_after
       (run scenario.flat scenario.empty
          (serve scenario.unconfigured
             (Register (schemas.mkUserCreate "apitestuser" "apitestpass")))))
  /\ consistent
       (state_after
          (run scenario.flat scenario.empty
             (serve scenario.unconfigured
                (Register (schemas.mkUserCreate "apitestuser" "apitestpass"))))).
Proof.
  split.
  - apply reachable_serve. apply reachable_empty.
  - apply (X7_reachable_states_are_consistent scenario.flat).
    apply reachable_serve. apply reachable_empty.
Defined.

Section Reading.

Context {A B : Type}.

Lemma reads_here (m : M A) :
  (forall s, snd (m s) = s) -> only_reads m.
Proof.
  intros Hm s. exists []. rewrite Hm, app_nil_r. destruct s. split; reflexivity.
Qed.

Lemma reads_ret (a : A) : only_reads (ret a).
Proof. apply reads_here. reflexivity. Qed.

Lemma reads_raise (err : exn) : only_reads (@raise A err).
Proof. apply reads_here. reflexivity. Qed.

Lemma reads_lift (r : result A) : only_reads (lift r).
Proof. apply reads_here. reflexivity. Qed.

Lemma reads_query (t : table) (answer : postgis.engine -> Database -> A) :
  only_reads (query t answer).
Proof. intros s. exists [SELECT t]. split; reflexivity. Qed.

Lemma reads_bind (m : M A) (k : A -> M B) :
  only_reads m -> (forall a, only_reads (k a)) -> only_reads (bind_M m k).
Proof.
  intros Hm Hk s. unfold bind_M. destruct (Hm s) as (first & Hfirst & Hselects).
  destruct (m s) as [[a|err] s']; cbn [snd] in Hfirst |- *.
  - destruct (Hk a s') as (second & Hsecond & Hselects').
    exists (first ++ second). rewrite Hsecond, Hfirst. cbn [bind store pending log].
    rewrite app_assoc, forallb_app, Hselects, Hselects'. split; reflexivity.
  - exists first. split; assumption.
Qed.

Lemma reads_try_except (body : M A) (handler : exn -> M A) :
  only_reads body -> (forall err, only_reads (handler err)) ->
  only_reads (try_except body handler).
Proof.
  intros Hbody Hhandler s. unfold try_except.
  destruct (Hbody s) as (first & Hfirst & Hselects).
  destruct (body s) as [[a|err] s']; cbn [snd] in Hfirst |- *.
  - exists first. split; assumption.
  - destruct (Hhandler err s') as (second & Hsecond & Hselects').
    exists (first ++ second). rewrite Hsecond, Hfirst. cbn [bind store pending log].
    rewrite app_assoc, forallb_app, Hselects, Hselects'. split; reflexivity.
Qed.

End Reading.

Ltac reads_step :=
  first
    [ apply reads_ret | apply reads_raise | apply reads_lift | apply reads_query
    | apply reads_bind; [|intros ?]
    | apply reads_try_except; [|intros ?]
    | match goal with
      | |- only_reads (match ?x with _ => _ end) => destruct x
      | |- only_reads (if ?x then _ else _) => destruct x
      end ].

Lemma reading_calls_only_read (p : process) (c : call) :
  reads c = true -> only_reads (serve p c).
Proof.
  destruct c as [user|username password|request op|info f];
    [ | | destruct op | destruct f ];
    cbn [reads]; intros Hreads; try discriminate Hreads;
    unfold_api; repeat reads_step.
Qed.

(** X8: the reading calls never write.  Login on either surface, the list,
    get and predicate-query endpoints of the resource surface and every
    query field of the graph surface leave the committed state exactly as
    it was, for any arguments and credentials and whether they succeed or
    fail, and every statement they send is a SELECT. *)
Theorem X8_reading_calls_never_write
  (e : postgis.engine) (p : process) (d : Database) (c : call) :
  reads c = true ->
  state_after (run e d (serve p c)) = d
  /\ forallb is_select (statements (run e d (serve p c))) = true.
Proof.
  intros Hreads. unfold state_after, statements, run.
  destruct (reading_calls_only_read p c Hreads (SessionLocal e d))
    as (sent_here & Hafter & Hselects).
  destruct (serve p c (SessionLocal e d)) as [r s]. cbn [snd fst] in Hafter |- *.
  rewrite Hafter. cbn [store log SessionLocal app]. split; [reflexivity|exact Hselects].
Qed.

Lemma X8_reading_calls_never_write_witness :
  reads (Graph (graphql_app.schema.mkInfo None)
           (QueryPointsNearby (json.dumps scenario.test_point) 10000)) = true
  /\ state_after
       (run scenario.flat scenario.crowded
          (serve scenario.unconfigured
             (Graph (graphql_app.schema.mkInfo None)
                (QueryPointsNearby (json.dumps scenario.test_point) 10000))))
     = scenario.crowded.
Proof.
  split.
  - reflexivity.
  - apply (X8_reading_calls_never_write scenario.flat scenario.unconfigured
             scenario.crowded
             (Graph (graphql_app.schema.mkInfo None)
                (QueryPointsNearby (json.dumps scenario.test_point) 10000))).
    reflexivity.
Defined.

(** ** Writes that go through *)

Lemma find_snoc_fresh {A : Type} (test : A -> bool) (rows : list A) (row : A) :
  List.find test rows = None -> test row = true ->
  List.find test (rows ++ [row]) = Some row.
Proof.
  intros Hnone Hrow. induction rows as [|r rows IH]; cbn in *.
  - rewrite Hrow. reflexivity.
  - destruct (test r); [discriminate|apply IH, Hnone].
Qed.




Lemma find_delete {A : Type} (key : A -> Z) (id : Z) (rows : list A) :
  List.find (fun r => (key r =? id)%Z)
            (List.filter (fun r => negb (key r =? id)%Z) rows) = None.
Proof.
  induction rows as [|r rows IH]; cbn; [reflexivity|].
  destruct (key r =? id)%Z eqn:Hr; cbn; [exact IH|]. rewrite ?Hr. exact IH.
Qed.

Lemma find_delete_other {A : Type} (key : A -> Z) (id other : Z) (rows : list A) :
  other <> id ->
  List.find (fun r => (key r =? other)%Z)
            (List.filter (fun r => negb (key r =? id)%Z) rows)
  = List.find (fun r => (key r =? other)%Z) rows.
Proof.
  intros Hother. induction rows as [|r rows IH]; cbn; [reflexivity|].
  destruct (Z.eqb_spec (key r) id) as [Hr|Hr]; cbn.
  - destruct (Z.eqb_spec (key r) other) as [Ho|_]; [congruence|exact IH].
  - destruct (key r =? other)%Z; [reflexivity|exact IH].
Qed.

Lemma find_key {A : Type} (key : A -> Z) (id : Z) (rows : list A) (row : A) :
  List.find (fun r => (key r =? id)%Z) rows = Some row -> key row = id /\ List.In row rows.
Proof.
  intros Hfind. apply List.find_some in Hfind as [Hin Hkey].
  split; [apply Z.eqb_eq, Hkey|exact Hin].
Qed.




Section WritesThatGoThrough.

Variables (e : postgis.engine) (d : Database) (sent_so_far : list statement).

Local Abbreviation s := (mkSession e d [] sent_so_far).



Lemma rest_delete_point_stored (id : Z) (row : SpatialPoint) :
  point_with id d = Some row ->
  app.crud.delete_point id s
  = (Ok (Some row),
     mkSession e (after_deleting_point d id) []
       (sent_so_far ++ [SELECT points] ++ [DELETE points])).
Proof.
  unfold point_with. intros Hrow.
  unfold app.crud.delete_point, app.crud.get_point.
  unfold_session_code. cbn [bind store pending log].
  rewrite Hrow. cbn [bind store pending log app flush flush_change map statement_of].
  rewrite <- !app_assoc. reflexivity.
Qed.

Lemma rest_delete_point_missing (id : Z) :
  point_with id d = None ->
  app.crud.delete_point id s
  = (Ok None, mkSession e d [] (sent_so_far ++ [SELECT points])).
Proof.
  unfold point_with. intros Hrow.
  unfold app.crud.delete_point, app.crud.get_point.
  unfold_session_code. cbn [bind store pending log].
  rewrite Hrow. reflexivity.
Qed.

Lemma rest_get_point_run (id : Z) :
  app.crud.get_point id s
  = (Ok (point_with id d), mkSession e d [] (sent_so_far ++ [SELECT points])).
Proof. reflexivity. Qed.



Lemma rest_delete_polygon_stored (id : Z) (row : SpatialPolygon) :
  polygon_with id d = Some row ->
  app.crud.delete_polygon id s
  = (Ok (Some row),
     mkSession e (after_deleting_polygon d id) []
       (sent_so_far ++ [SELECT polygons] ++ [DELETE polygons])).
Proof.
  unfold polygon_with. intros Hrow.
  unfold app.crud.delete_polygon, app.crud.get_polygon.
  unfold_session_code. cbn [bind store pending log].
  rewrite Hrow. cbn [bind store pending log app flush flush_change map statement_of].
  rewrite <- !app_assoc. reflexivity.
Qed.

Lemma rest_delete_polygon_missing (id : Z) :
  polygon_with id d = None ->
  app.crud.delete_polygon id s
  = (Ok None, mkSession e d [] (sent_so_far ++ [SELECT polygons])).
Proof.
  unfold polygon_with. intros Hrow.
  unfold app.crud.delete_polygon, app.crud.get_polygon.
  unfold_session_code. cbn [bind store pending log].
  rewrite Hrow. reflexivity.
Qed.

Lemma rest_get_polygon_run (id : Z) :
  app.crud.get_polygon id s
  = (Ok (polygon_with id d), mkSession e d [] (sent_so_far ++ [SELECT polygons])).
Proof. reflexivity. Qed.

End WritesThatGoThrough.

(** ** The two repositories agree *)

Ltac split_scrutinee :=
  match goal with
  | |- context [match ?x with _ => _ end] =>
      lazymatch x with
      | context [match _ with _ => _ end] => fail
      | _ => destruct x eqn:?
      end
  end.

Ltac simplify_session :=
  cbn [schemas.PointBase.name schemas.PointBase.description schemas.PointBase.location
       schemas.PolygonBase.name schemas.PolygonBase.description schemas.PolygonBase.area
       schemas.username schemas.password
       fst snd bind store pending log app map statement_of flush flush_change
       with_users with_points with_polygons
       users_rows points_rows polygons_rows
       users_id_seq points_id_seq polygons_id_seq
       returned same_answer was_there].

Ltac agree :=
  unfold_api; unfold app.crud.get_password_hash, graphql_app.crud.get_password_hash;
  unfold_session_code;
  repeat (simplify_session; split_scrutinee);
  simplify_session; split; first [reflexivity | exact I | congruence].

Section Agreement.

Variables (e : postgis.engine) (d : Database).

Lemma create_point_agrees (name description : string) (geojson : pyval) :
  state_after (run e d (app.crud.create_point
                          (schemas.PointBase.mk name (Some description) geojson)))
  = state_after (run e d (graphql_app.crud.create_point name description geojson))
  /\ same_answer
       (returned (outcome (run e d (app.crud.create_point
                                      (schemas.PointBase.mk name (Some description)
                                         geojson)))))
       (outcome (run e d (graphql_app.crud.create_point name description geojson))).
Proof. agree. Qed.

Lemma update_point_agrees (id : Z) (name description : string) (geojson : pyval) :
  state_after (run e d (app.crud.update_point id
                          (schemas.PointBase.mk name (Some description) geojson)))
  = state_after (run e d (graphql_app.crud.update_point id name description geojson))
  /\ same_answer
       (outcome (run e d (app.crud.update_point id
                            (schemas.PointBase.mk name (Some description) geojson))))
       (outcome (run e d (graphql_app.crud.update_point id name description geojson))).
Proof. agree. Qed.

Lemma delete_point_agrees (id : Z) :
  state_after (run e d (app.crud.delete_point id))
  = state_after (run e d (graphql_app.crud.delete_point id))
  /\ was_there (outcome (run e d (app.crud.delete_point id)))
               (outcome (run e d (graphql_app.crud.delete_point id))).
Proof. agree. Qed.

Lemma create_polygon_agrees (name description : string) (geojson : pyval) :
  state_after (run e d (app.crud.create_polygon
                          (schemas.PolygonBase.mk name (Some description) geojson)))
  = state_after (run e d (graphql_app.crud.create_polygon name description geojson))
  /\ same_answer
       (returned (outcome (run e d (app.crud.create_polygon
                                      (schemas.PolygonBase.mk name (Some description)
                                         geojson)))))
       (outcome (run e d (graphql_app.crud.create_polygon name description geojson))).
Proof. agree. Qed.

Lemma update_polygon_agrees (id : Z) (name description : string) (geojson : pyval) :
  state_after (run e d (app.crud.update_polygon id
                          (schemas.PolygonBase.mk name (Some description) geojson)))
  = state_after (run e d (graphql_app.crud.update_polygon id name description geojson))
  /\ same_answer
       (outcome (run e d (app.crud.update_polygon id
                            (schemas.PolygonBase.mk name (Some description) geojson))))
       (outcome (run e d (graphql_app.crud.update_polygon id name description geojson))).
Proof. agree. Qed.

Lemma delete_polygon_agrees (id : Z) :
  state_after (run e d (app.crud.delete_polygon id))
  = state_after (run e d (graphql_app.crud.delete_polygon id))
  /\ was_there (outcome (run e d (app.crud.delete_polygon id)))
               (outcome (run e d (graphql_app.crud.delete_polygon id))).
Proof. agree. Qed.

Lemma create_user_agrees (username password : string) :
  state_after (run e d (app.crud.create_user (schemas.mkUserCreate username password)))
  = state_after (run e d (graphql_app.crud.create_user username password))
  /\ same_answer
       (returned (outcome (run e d (app.crud.create_user
                                      (schemas.mkUserCreate username password)))))
       (outcome (run e d (graphql_app.crud.create_user username password))).
Proof. agree. Qed.

End Agreement.

(** ** The life of a point on the resource surface *)


Lemma typed_point_row (d : Database) (id : Z) (row : SpatialPoint) :
  well_typed d = true -> point_with id d = Some row ->
  location_column_accepts (location row) = true.
Proof.
  unfold well_typed, point_with. intros Htyped Hrow.
  apply andb_true_iff in Htyped as [Hpoints _].
  rewrite List.forallb_forall in Hpoints.
  apply Hpoints. exact (proj2 (find_key point_id id _ _ Hrow)).
Qed.

Section PointEndpoints.

Variables (e : postgis.engine) (p : process) (d : Database) (request : app.main.Request).

Hypothesis Hvalid : presents_valid_bearer_token p d request = true.



Lemma endpoint_get_point_missing (id : Z) :
  point_with id d = None ->
  run e d (app.main.get_point p request id)
  = (Raise (HTTPException 404 "Point not found"), d, [SELECT users; SELECT points]).
Proof using Hvalid.
  intros Hrow.
  destruct (get_current_user_accepts e p d request Hvalid) as (user & Hgate).
  unfold run, app.main.get_point.
  rewrite (bind_M_ok _ _ _ _ _ Hgate).
  rewrite (bind_M_ok _ _ _ _ _ (rest_get_point_run e d [SELECT users] id)).
  rewrite Hrow. reflexivity.
Qed.


Lemma endpoint_delete_point_stored (id : Z) (row : SpatialPoint) :
  point_with id d = Some row ->
  location_column_accepts (location row) = true ->
  run e d (app.main.delete_point p request id)
  = (Ok (point_out row), after_deleting_point d id,
     [SELECT users; SELECT points; DELETE points]).
Proof using Hvalid.
  intros Hrow Haccepts.
  destruct (get_current_user_accepts e p d request Hvalid) as (user & Hgate).
  unfold run, app.main.delete_point.
  rewrite (bind_M_ok _ _ _ _ _ Hgate).
  rewrite (bind_M_ok _ _ _ _ _ (rest_delete_point_stored e d [SELECT users] id row Hrow)).
  cbn [app.main.found]. unfold bind_M at 1, ret at 1.
  rewrite (point_to_schema_accepted row Haccepts). reflexivity.
Qed.

Lemma endpoint_delete_point_missing (id : Z) :
  point_with id d = None ->
  run e d (app.main.delete_point p request id)
  = (Raise (HTTPException 404 "Point not found"), d, [SELECT users; SELECT points]).
Proof using Hvalid.
  intros Hrow.
  destruct (get_current_user_accepts e p d request Hvalid) as (user & Hgate).
  unfold run, app.main.delete_point.
  rewrite (bind_M_ok _ _ _ _ _ Hgate).
  rewrite (bind_M_ok _ _ _ _ _ (rest_delete_point_missing e d [SELECT users] id Hrow)).
  reflexivity.
Qed.

End PointEndpoints.

(** ** The life of a polygon on the resource surface *)

Lemma typed_polygon_row (d : Database) (id : Z) (row : SpatialPolygon) :
  well_typed d = true -> polygon_with id d = Some row ->
  area_column_accepts (area row) = true.
Proof.
  unfold well_typed, polygon_with. intros Htyped Hrow.
  apply andb_true_iff in Htyped as [_ Hpolygons].
  rewrite List.forallb_forall in Hpolygons.
  apply Hpolygons. exact (proj2 (find_key polygon_id id _ _ Hrow)).
Qed.

Section PolygonEndpoints.

Variables (e : postgis.engine) (p : process) (d : Database) (request : app.main.Request).

Hypothesis Hvalid : presents_valid_bearer_token p d request = true.



Lemma endpoint_get_polygon_missing (id : Z) :
  polygon_with id d = None ->
  run e d (app.main.get_polygon p request id)
  = (Raise (HTTPException 404 "Polygon not found"), d, [SELECT users; SELECT polygons]).
Proof using Hvalid.
  intros Hrow.
  destruct (get_current_user_accepts e p d request Hvalid) as (user & Hgate).
  unfold run, app.main.get_polygon.
  rewrite (bind_M_ok _ _ _ _ _ Hgate).
  rewrite (bind_M_ok _ _ _ _ _ (rest_get_polygon_run e d [SELECT users] id)).
  rewrite Hrow. reflexivity.
Qed.


Lemma endpoint_delete_polygon_stored (id : Z) (row : SpatialPolygon) :
  polygon_with id d = Some row ->
  area_column_accepts (area row) = true ->
  run e d (app.main.delete_polygon p request id)
  = (Ok (polygon_out row), after_deleting_polygon d id,
     [SELECT users; SELECT polygons; DELETE polygons]).
Proof using Hvalid.
  intros Hrow Haccepts.
  destruct (get_current_user_accepts e p d request Hvalid) as (user & Hgate).
  unfold run, app.main.delete_polygon.
  rewrite (bind_M_ok _ _ _ _ _ Hgate).
  rewrite (bind_M_ok _ _ _ _ _ (rest_delete_polygon_stored e d [SELECT users] id row Hrow)).
  cbn [app.main.found]. unfold bind_M at 1, ret at 1.
  rewrite (polygon_to_schema_accepted row Haccepts). reflexivity.
Qed.

Lemma endpoint_delete_polygon_missing (id : Z) :
  polygon_with id d = None ->
  run e d (app.main.delete_polygon p request id)
  = (Raise (HTTPException 404 "Polygon not found"), d, [SELECT users; SELECT polygons]).
Proof using Hvalid.
  intros Hrow.
  destruct (get_current_user_accepts e p d request Hvalid) as (user & Hgate).
  unfold run, app.main.delete_polygon.
  rewrite (bind_M_ok _ _ _ _ _ Hgate).
  rewrite (bind_M_ok _ _ _ _ _ (rest_delete_polygon_missing e d [SELECT users] id Hrow)).
  reflexivity.
Qed.

End PolygonEndpoints.

(** ** Create, read, update, delete *)










(** X12: delete, then get.  An authenticated delete of an existing record
    answers 200 with the record as it was stored; afterwards no record has
    that id, a get of it and a second delete both answer 404 and change
    nothing, every other record of the table is what it was, and the other
    tables are untouched. *)
Theorem X12_deleted_record_is_gone
  (e : postgis.engine) (p : process) (d : Database) (request : app.main.Request)
  (point_id polygon_id : Z) (old_point : SpatialPoint) (old_polygon : SpatialPolygon) :
  presents_valid_bearer_token p d request = true ->
  well_typed d = true ->
  point_with point_id d = Some old_point ->
  polygon_with polygon_id d = Some old_polygon ->
  let without_point := state_after (run e d (app.main.delete_point p request point_id)) in
  let without_polygon :=
    state_after (run e d (app.main.delete_polygon p request polygon_id)) in
  (outcome (run e d (app.main.delete_point p request point_id)) = Ok (point_out old_point)
   /\ point_with point_id without_point = None
   /\ (forall other, other <> point_id ->
       point_with other without_point = point_with other d)
   /\ polygons_rows without_point = polygons_rows d
   /\ users_rows without_point = users_rows d
   /\ app.main.status_code
        (outcome (run e without_point (app.main.get_point p request point_id))) = 404%Z
   /\ run e without_point (app.main.delete_point p request point_id)
      = (Raise (HTTPException 404 "Point not found"), without_point,
         [SELECT users; SELECT points]))
  /\ (outcome (run e d (app.main.delete_polygon p request polygon_id))
      = Ok (polygon_out old_polygon)
      /\ polygon_with polygon_id without_polygon = None
      /\ (forall other, other <> polygon_id ->
          polygon_with other without_polygon = polygon_with other d)
      /\ points_rows without_polygon = points_rows d
      /\ users_rows without_polygon = users_rows d
      /\ app.main.status_code
           (outcome (run e without_polygon (app.main.get_polygon p request polygon_id)))
         = 404%Z
      /\ run e without_polygon (app.main.delete_polygon p request polygon_id)
         = (Raise (HTTPException 404 "Polygon not found"), without_polygon,
            [SELECT users; SELECT polygons])).
Proof.
  intros Hvalid Htyped Hold_point Hold_polygon. cbv zeta.
  rewrite (endpoint_delete_point_stored e p d request Hvalid point_id old_point Hold_point
             (typed_point_row d point_id old_point Htyped Hold_point)).
  rewrite (endpoint_delete_polygon_stored e p d request Hvalid polygon_id old_polygon
             Hold_polygon (typed_polygon_row d polygon_id old_polygon Htyped Hold_polygon)).
  rewrite !state_after_triple, !outcome_triple.
  assert (Hpoint_gone : point_with point_id (after_deleting_point d point_id) = None).
  { unfold point_with, after_deleting_point. cbn [with_points points_rows].
    apply (find_delete models.point_id). }
  assert (Hpolygon_gone :
            polygon_with polygon_id (after_deleting_polygon d polygon_id) = None).
  { unfold polygon_with, after_deleting_polygon. cbn [with_polygons polygons_rows].
    apply (find_delete models.polygon_id). }
  split.
  - split; [reflexivity|]. split; [exact Hpoint_gone|]. split.
    { intros other Hother. unfold point_with, after_deleting_point.
      cbn [with_points points_rows].
      apply (find_delete_other models.point_id); exact Hother. }
    split; [reflexivity|]. split; [reflexivity|].
    rewrite (endpoint_get_point_missing e p (after_deleting_point d point_id) request
               Hvalid point_id Hpoint_gone).
    rewrite (endpoint_delete_point_missing e p (after_deleting_point d point_id) request
               Hvalid point_id Hpoint_gone).
    split; reflexivity.
  - split; [reflexivity|]. split; [exact Hpolygon_gone|]. split.
    { intros other Hother. unfold polygon_with, after_deleting_polygon.
      cbn [with_polygons polygons_rows].
      apply (find_delete_other models.polygon_id); exact Hother. }
    split; [reflexivity|]. split; [reflexivity|].
    rewrite (endpoint_get_polygon_missing e p (after_deleting_polygon d polygon_id) request
               Hvalid polygon_id Hpolygon_gone).
    rewrite (endpoint_delete_polygon_missing e p (after_deleting_polygon d polygon_id)
               request Hvalid polygon_id Hpolygon_gone).
    split; reflexivity.
Qed.

(** The deletions of the test suite. *)
Lemma X12_deleted_record_is_gone_witness :
  presents_valid_bearer_token scenario.unconfigured furnished.store scenario.bearer = true
  /\ well_typed furnished.store = true
  /\ point_with 1 furnished.store = Some (scenario.stored_point 1 77.0365 38.8977)
  /\ polygon_with 1 furnished.store = Some furnished.stored_polygon
  /\ point_with 1
       (state_after (run scenario.flat furnished.store
                       (app.main.delete_point scenario.unconfigured scenario.bearer 1)))
     = None.
Proof.
  split; [reflexivity|]. split; [reflexivity|]. split; [reflexivity|].
  split; [reflexivity|].
  apply (X12_deleted_record_is_gone scenario.flat scenario.unconfigured furnished.store
           scenario.bearer 1 1 (scenario.stored_point 1 77.0365 38.8977)
           furnished.stored_polygon);
    reflexivity.
Defined.

(** X9: the two repositories write alike.  For the same arguments and the
    same state, each writing function of graphql_app/crud.py leaves exactly
    the state its twin in app/crud.py leaves, and says the same: the same
    row on success, nothing where nothing was found, the same unhandled
    exception; only a handled failure differs, raised as an HTTPException
    by the one and answered with [None] by the other. *)
Theorem X9_the_two_repositories_write_alike
  (e : postgis.engine) (d : Database) (id : Z)
  (name description username password : string) (geojson : pyval) :
  let point := schemas.PointBase.mk name (Some description) geojson in
  let polygon := schemas.PolygonBase.mk name (Some description) geojson in
  let user := schemas.mkUserCreate username password in
  (state_after (run e d (app.crud.create_point point))
   = state_after (run e d (graphql_app.crud.create_point name description geojson))
   /\ same_answer
        (returned (outcome (run e d (app.crud.create_point point))))
        (outcome (run e d (graphql_app.crud.create_point name description geojson))))
  /\ (state_after (run e d (app.crud.update_point id point))
      = state_after (run e d (graphql_app.crud.update_point id name description geojson))
      /\ same_answer
           (outcome (run e d (app.crud.update_point id point)))
           (outcome (run e d (graphql_app.crud.update_point id name description geojson))))
  /\ (state_after (run e d (app.crud.delete_point id))
      = state_after (run e d (graphql_app.crud.delete_point id))
      /\ was_there (outcome (run e d (app.crud.delete_point id)))
                   (outcome (run e d (graphql_app.crud.delete_point id))))
  /\ (state_after (run e d (app.crud.create_polygon polygon))
      = state_after (run e d (graphql_app.crud.create_polygon name description geojson))
      /\ same_answer
           (returned (outcome (run e d (app.crud.create_polygon polygon))))
           (outcome (run e d (graphql_app.crud.create_polygon name description geojson))))
  /\ (state_after (run e d (app.crud.update_polygon id polygon))
      = state_after (run e d (graphql_app.crud.update_polygon id name description geojson))
      /\ same_answer
           (outcome (run e d (app.crud.update_polygon id polygon)))
           (outcome (run e d (graphql_app.crud.update_polygon id name description
                                geojson))))
  /\ (state_after (run e d (app.crud.delete_polygon id))
      = state_after (run e d (graphql_app.crud.delete_polygon id))
      /\ was_there (outcome (run e d (app.crud.delete_polygon id)))
                   (outcome (run e d (graphql_app.crud.delete_polygon id))))
  /\ (state_after (run e d (app.crud.create_user user))
      = state_after (run e d (graphql_app.crud.create_user username password))
      /\ same_answer
           (returned (outcome (run e d (app.crud.create_user user))))
           (outcome (run e d (graphql_app.crud.create_user username password)))).
Proof.
  cbv zeta.
  split; [apply create_point_agrees|].
  split; [apply update_point_agrees|].
  split; [apply delete_point_agrees|].
  split; [apply create_polygon_agrees|].
  split; [apply update_polygon_agrees|].
  split; [apply delete_polygon_agrees|].
  apply create_user_agrees.
Qed.

(** ** A geometry of the wrong kind *)



(** ** Logging in *)

Lemma find_username {A : Type} (name : string) (rows : list User) (u : User) :
  List.find (fun r => String.eqb (username r) name) rows = Some u -> username u = name.
Proof.
  intros Hfind. apply List.find_some in Hfind as [_ Heq]. apply String.eqb_eq, Heq.
Qed.

Lemma credentials_username (username password : string) (d : Database) (u : User) :
  credentials_match username password d = Some u -> models.username u = username.
Proof.
  unfold credentials_match.
  destruct (List.find _ (users_rows d)) as [u'|] eqn:Hfind; [|discriminate].
  destruct (passlib.verify password (hashed_password u')); [|discriminate].
  intros [= <-]. apply (find_username (A := unit) _ _ _ Hfind).
Qed.

Lemma credentials_registered (username password : string) (d : Database) (u : User) :
  credentials_match username password d = Some u ->
  List.find (fun r => String.eqb (models.username r) username) (users_rows d) = Some u.
Proof.
  unfold credentials_match.
  destruct (List.find _ (users_rows d)) as [u'|] eqn:Hfind; [|discriminate].
  destruct (passlib.verify password (hashed_password u')); [|discriminate].
  intros [= <-]. reflexivity.
Qed.

Lemma rest_login_run (e : postgis.engine) (p : process) (d : Database)
  (username password : string) :
  run e d (app.main.login p username password)
  = (match credentials_match username password d with
     | Some _ => Ok (token_for p username)
     | None => Raise (HTTPException 400 "Incorrect username or password")
     end, d, [SELECT users]).
Proof.
  unfold app.main.login, app.crud.authenticate_user, app.crud.get_user_by_username,
    app.crud.verify_password.
  unfold_session_code. cbn [bind store pending log app].
  destruct (credentials_match username password d) as [u|] eqn:Hmatch.
  - pose proof (credentials_username _ _ _ _ Hmatch) as Hname.
    unfold credentials_match in Hmatch.
    destruct (List.find _ (users_rows d)) as [u'|]; [|discriminate].
    destruct (passlib.verify password (hashed_password u')); [|discriminate].
    injection Hmatch as ->. rewrite Hname. reflexivity.
  - unfold credentials_match in Hmatch.
    destruct (List.find _ (users_rows d)) as [u'|]; [|reflexivity].
    destruct (passlib.verify password (hashed_password u')); [discriminate|].
    reflexivity.
Qed.

(** X14: what login answers.  Both surfaces look the username up once and
    change nothing.  When the user exists and the password verifies, the
    answer is a bearer token signed with the process key under HS256 whose
    subject is that username and which expires 3600 seconds after the
    clock; an unknown username and a wrong password are answered alike,
    with 400 and one and the same detail on the resource surface and with
    null on the graph surface. *)
Theorem X14_login_issues_an_hour_token_or_refuses_alike
  (e : postgis.engine) (p : process) (d : Database) (info : graphql_app.schema.Info)
  (username password : string) :
  run e d (app.main.login p username password)
  = (match credentials_match username password d with
     | Some _ => Ok (token_for p username)
     | None => Raise (HTTPException 400 "Incorrect username or password")
     end, d, [SELECT users])
  /\ run e d (graphql_app.schema.Mutation.login p info username password)
     = (match credentials_match username password d with
        | Some _ => Ok (Some (graphql_app.schema.Token.mk (token_for p username) "bearer"))
        | None => Ok None
        end, d, [SELECT users]).
Proof.
  split; [apply rest_login_run|].
  unfold graphql_app.schema.Mutation.login, graphql_app.crud.authenticate_user,
    graphql_app.crud.get_user_by_username, graphql_app.crud.verify_password.
  unfold_session_code. cbn [bind store pending log app].
  destruct (credentials_match username password d) as [u|] eqn:Hmatch.
  - pose proof (credentials_username _ _ _ _ Hmatch) as Hname.
    unfold credentials_match in Hmatch.
    destruct (List.find _ (users_rows d)) as [u'|]; [|discriminate].
    destruct (passlib.verify password (hashed_password u')); [|discriminate].
    injection Hmatch as ->. rewrite Hname. reflexivity.
  - unfold credentials_match in Hmatch.
    destruct (List.find _ (users_rows d)) as [u'|]; [|reflexivity].
    destruct (passlib.verify password (hashed_password u')); [discriminate|].
    reflexivity.
Qed.

Lemma get_current_user_of_token (e : postgis.engine) (env : gmap string string)
  (issued now : Z) (d : Database) (name : string) (u : User) :
  List.find (fun r => String.eqb (username r) name) (users_rows d) = Some u ->
  (now <= issued + 3600)%Z ->
  app.main.get_current_user (mkProcess env now)
    (bearer_of (token_for (mkProcess env issued) name)) (SessionLocal e d)
  = (Ok u, mkSession e d [] [SELECT users]).
Proof.
  intros Hfind Hfresh.
  unfold app.main.get_current_user, app.main.oauth2_scheme, bearer_of, token_for,
    app.crud.get_user_by_username, jose.decode, app.crud.ALGORITHM, app.crud.SECRET_KEY,
    os_getenv.
  unfold_session_code.
  cbn [app.main.authorization shapely.lower environ utcnow existsb jose.exp jose.sub].
  change (String.eqb (shapely.lower "Bearer") "bearer") with true. cbn iota.
  rewrite !String.eqb_refl. cbn [orb negb jose.exp].
  replace (issued + 3600 <? now)%Z with false by (symmetry; apply Z.ltb_ge; lia).
  cbn [jose.sub bind store pending log app]. rewrite Hfind. reflexivity.
Qed.

Lemma token_expired (env : gmap string string) (issued now : Z) (d : Database)
  (name : string) :
  (issued + 3600 < now)%Z ->
  presents_valid_bearer_token (mkProcess env now) d
    (bearer_of (token_for (mkProcess env issued) name)) = false.
Proof.
  intros Hlate. unfold presents_valid_bearer_token, bearer_of, token_for.
  cbn [app.main.authorization jose.exp jose.sub utcnow].
  destruct (Z.leb_spec now (issued + 3600)) as [Hle|_]; [lia|].
  rewrite !andb_false_r. reflexivity.
Qed.

(** X15: the token of a login is good for an hour and no longer.  Whatever
    token a successful login hands out at one clock, presenting it as a
    Bearer authorization to a process with the same environment
    authenticates the user of that name as long as the clock has advanced
    by at most 3600 seconds, and is answered 401 by every protected
    operation, with the state untouched, once it has advanced further. *)
Theorem X15_login_token_is_good_for_an_hour
  (e : postgis.engine) (env : gmap string string) (issued now : Z) (d : Database)
  (username password : string) (token : jose.token) (op : app.main.operation) :
  outcome (run e d (app.main.login (mkProcess env issued) username password)) = Ok token ->
  ((now <= issued + 3600)%Z ->
   exists user,
     outcome (run e d (app.main.get_current_user (mkProcess env now) (bearer_of token)))
     = Ok user
     /\ models.username user = username)
  /\ ((issued + 3600 < now)%Z ->
      app.main.status_code
        (outcome (run e d (app.main.route (mkProcess env now) (bearer_of token) op)))
      = 401%Z
      /\ state_after (run e d (app.main.route (mkProcess env now) (bearer_of token) op))
         = d).
Proof.
  intros Hlogin.
  rewrite (rest_login_run e (mkProcess env issued) d username password) in Hlogin.
  unfold outcome in Hlogin.
  destruct (credentials_match username password d) as [u|] eqn:Hmatch;
    [|discriminate].
  injection Hlogin as <-.
  pose proof (credentials_registered _ _ _ _ Hmatch) as Hfind.
  pose proof (credentials_username _ _ _ _ Hmatch) as Hname.
  split.
  - intros Hfresh. exists u. split; [|exact Hname].
    unfold run, outcome.
    rewrite (get_current_user_of_token e env issued now d username u Hfind Hfresh).
    reflexivity.
  - intros Hlate.
    pose proof (token_expired env issued now d username Hlate) as Hinvalid.
    destruct (get_current_user_rejects e (mkProcess env now) d _ Hinvalid)
      as (detail & sent_so_far & Hrejected & _).
    pose proof (route_stops_when_the_dependency_raises (mkProcess env now) _ op _ _ _
                  Hrejected) as Hroute.
    unfold run, outcome, state_after. rewrite Hroute. split; reflexivity.
Qed.

(** The token the test suite logs in with, a quarter of an hour later. *)
Lemma X15_login_token_is_good_for_an_hour_witness :
  outcome (run scenario.flat scenario.one_degree_east
             (app.main.login (mkProcess ∅ 1000) "apitestuser" "apitestpass"))
  = Ok (token_for (mkProcess ∅ 1000) "apitestuser")
  /\ ((1900 <= 1000 + 3600)%Z ->
      exists user,
        outcome (run scenario.flat scenario.one_degree_east
                   (app.main.get_current_user (mkProcess ∅ 1900)
                      (bearer_of (token_for (mkProcess ∅ 1000) "apitestuser"))))
        = Ok user
        /\ models.username user = "apitestuser")
  /\ ((1000 + 3600 < 1900)%Z ->
      app.main.status_code
        (outcome (run scenario.flat scenario.one_degree_east
                    (app.main.route (mkProcess ∅ 1900)
                       (bearer_of (token_for (mkProcess ∅ 1000) "apitestuser"))
                       (app.main.GetPoint 1))))
      = 401%Z
      /\ state_after (run scenario.flat scenario.one_degree_east
                        (app.main.route (mkProcess ∅ 1900)
                           (bearer_of (token_for (mkProcess ∅ 1000) "apitestuser"))
                           (app.main.GetPoint 1)))
         = scenario.one_degree_east).
Proof.
  split; [reflexivity|].
  apply (X15_login_token_is_good_for_an_hour scenario.flat ∅ 1000 1900
           scenario.one_degree_east "apitestuser" "apitestpass"
           (token_for (mkProcess ∅ 1000) "apitestuser") (app.main.GetPoint 1)).
  reflexivity.
Defined.

(** ** Registering, logging in, being recognised *)

Lemma credentials_after_registering (name password : string) (d : Database) :
  registered name d = false ->
  credentials_match name password (after_registering name password d)
  = Some (mkUser (users_id_seq d + 1) name (passlib.hash password)).
Proof.
  intros Hfree. unfold credentials_match, after_registering.
  cbn [with_users users_rows].
  rewrite (find_snoc_fresh (fun r => String.eqb (username r) name) (users_rows d)
             (mkUser (users_id_seq d + 1) name (passlib.hash password))
             (find_none_existsb _ _ Hfree) (String.eqb_refl name)).
  cbn [hashed_password]. unfold passlib.verify. rewrite String.eqb_refl. reflexivity.
Qed.

(** X16: a user who has just registered can log in and is recognised.
    After a first registration of a username on either surface, logging
    in with the same password succeeds, changes nothing, and hands out a
    token which, presented within the hour to a process with the same
    environment, makes the dependency of the protected operations return
    the registered row: the new key, that username, the hash of that
    password. *)
Theorem X16_registered_user_logs_in_and_is_recognised
  (e : postgis.engine) (env : gmap string string) (issued now : Z) (d d' : Database)
  (info : graphql_app.schema.Info) (name password : string) :
  registered name d = false ->
  (now <= issued + 3600)%Z ->
  d' = state_after (run e d (app.main.register (schemas.mkUserCreate name password)))
  \/ d' = state_after (run e d (graphql_app.schema.Mutation.register info name password)) ->
  exists token,
    run e d' (app.main.login (mkProcess env issued) name password)
    = (Ok token, d', [SELECT users])
    /\ outcome (run e d' (app.main.get_current_user (mkProcess env now) (bearer_of token)))
       = Ok (mkUser (users_id_seq d + 1) name (passlib.hash password)).
Proof.
  intros Hfree Hfresh Hd'.
  assert (d' = after_registering name password d) as ->.
  { destruct Hd' as [->| ->].
    - destruct (rest_register_free e d name password Hfree) as (row & ->). reflexivity.
    - rewrite (graph_register_free e d name password info Hfree). reflexivity. }
  pose proof (credentials_after_registering name password d Hfree) as Hmatch.
  exists (token_for (mkProcess env issued) name). split.
  - rewrite (rest_login_run e (mkProcess env issued) _ name password).
    rewrite Hmatch. reflexivity.
  - unfold run, outcome.
    rewrite (get_current_user_of_token e env issued now _ name _
               (credentials_registered _ _ _ _ Hmatch) Hfresh).
    reflexivity.
Qed.

(** The fixture of the test suite: register, log in, use the token. *)
Lemma X16_registered_user_logs_in_and_is_recognised_witness :
  registered "apitestuser" scenario.empty = false
  /\ (1900 <= 1000 + 3600)%Z
  /\ exists token,
       run scenario.flat (after_registering "apitestuser" "apitestpass" scenario.empty)
         (app.main.login (mkProcess ∅ 1000) "apitestuser" "apitestpass")
       = (Ok token, after_registering "apitestuser" "apitestpass" scenario.empty,
          [SELECT users])
       /\ outcome
            (run scenario.flat (after_registering "apitestuser" "apitestpass" scenario.empty)
               (app.main.get_current_user (mkProcess ∅ 1900) (bearer_of token)))
          = Ok (mkUser (users_id_seq scenario.empty + 1) "apitestuser"
                       (passlib.hash "apitestpass")).
Proof.
  split; [reflexivity|]. split; [lia|].
  apply (X16_registered_user_logs_in_and_is_recognised scenario.flat ∅ 1000 1900
           scenario.empty (after_registering "apitestuser" "apitestpass" scenario.empty)
           (graphql_app.schema.mkInfo None) "apitestuser" "apitestpass");
    [reflexivity|lia|left; reflexivity].
Defined.

(** ** The credentials helper of the graph surface *)

(** X17: the helper [get_current_user] of the graph schema never raises
    and only reads, and it recognises nobody the dependency of the
    resource surface would refuse: whatever the header, it returns after
    at most one SELECT on users with the state as before, and when it
    returns a user, the resource surface's dependency, given the same
    header by the same process on the same state, returns the row with
    that id and username. *)
Theorem X17_graph_credentials_helper_recognises_only_whom_the_dependency_does
  (e : postgis.engine) (p : process) (d : Database) (info : graphql_app.schema.Info) :
  exists answer sent_here,
    run e d (graphql_app.schema.get_current_user p info) = (Ok answer, d, sent_here)
    /\ (sent_here = [] \/ sent_here = [SELECT users])
    /\ forall user, answer = Some user ->
       exists row,
         outcome (run e d (app.main.get_current_user p
                             (app.main.mkRequest (graphql_app.schema.authorization info))))
         = Ok row
         /\ user = graphql_app.schema.User.mk (user_id row) (username row).
Proof.
  unfold graphql_app.schema.get_current_user, app.main.get_current_user,
    app.main.oauth2_scheme, graphql_app.crud.get_user_by_username,
    app.crud.get_user_by_username, jose.decode,
    graphql_app.crud.SECRET_KEY, app.crud.SECRET_KEY,
    graphql_app.crud.ALGORITHM, app.crud.ALGORITHM.
  cbn [app.main.authorization].
  destruct (graphql_app.schema.authorization info) as [[scheme token]|].
  2:{ exists None, []. split; [reflexivity|]. split; [left; reflexivity|discriminate]. }
  destruct (String.eqb_spec scheme "Bearer") as [->|_]; cbn [negb].
  2:{ exists None, []. split; [reflexivity|]. split; [left; reflexivity|discriminate]. }
  change (String.eqb (shapely.lower "Bearer") "bearer") with true. cbn iota.
  destruct token as [payload key algorithm|raw].
  2:{ exists None, []. split; [reflexivity|]. split; [left; reflexivity|discriminate]. }
  unfold_session_code. cbn [existsb].
  destruct (String.eqb algorithm "HS256"); cbn [orb negb].
  2:{ exists None, []. split; [reflexivity|]. split; [left; reflexivity|discriminate]. }
  destruct (String.eqb key (os_getenv p "SECRET_KEY" "supersecretkey")); cbn [negb].
  2:{ exists None, []. split; [reflexivity|]. split; [left; reflexivity|discriminate]. }
  destruct payload as [[subject|] expiry].
  2:{ exists None, []. destruct expiry as [t|]; cbn [jose.exp jose.sub];
        [destruct (t <? utcnow p)%Z|];
        (split; [reflexivity|]; split; [left; reflexivity|discriminate]). }
  destruct expiry as [t|]; cbn [jose.exp jose.sub].
  - destruct (t <? utcnow p)%Z.
    { exists None, []. split; [reflexivity|]. split; [left; reflexivity|discriminate]. }
    destruct subject as [|c rest].
    { exists None, []. split; [reflexivity|]. split; [left; reflexivity|discriminate]. }
    cbv [jose.sub jose.exp]. cbn [bind store pending log app].
    match goal with
    | |- context [List.find ?test (users_rows d)] =>
        destruct (List.find test (users_rows d)) as [row|]
    end.
    + eexists _, [SELECT users]. split; [reflexivity|]. split; [right; reflexivity|].
      intros user [= <-]. exists row. split; reflexivity.
    + exists None, [SELECT users]. split; [reflexivity|].
      split; [right; reflexivity|discriminate].
  - destruct subject as [|c rest].
    { exists None, []. split; [reflexivity|]. split; [left; reflexivity|discriminate]. }
    cbv [jose.sub jose.exp]. cbn [bind store pending log app].
    match goal with
    | |- context [List.find ?test (users_rows d)] =>
        destruct (List.find test (users_rows d)) as [row|]
    end.
    + eexists _, [SELECT users]. split; [reflexivity|]. split; [right; reflexivity|].
      intros user [= <-]. exists row. split; reflexivity.
    + exists None, [SELECT users]. split; [reflexivity|].
      split; [right; reflexivity|discriminate].
Qed.

(** ** The statuses of the protected operations *)

Lemma status_fmap {A B : Type} (f : A -> B) (m : M A) (e : postgis.engine) (d : Database) :
  app.main.status_code (outcome (run e d (app.main.fmap_M f m)))
  = app.main.status_code (outcome (run e d m)).
Proof.
  unfold app.main.fmap_M, run, outcome, bind_M, ret.
  destruct (m (SessionLocal e d)) as [[a|err] s]; reflexivity.
Qed.

Lemma state_fmap {A B : Type} (f : A -> B) (m : M A) (e : postgis.engine) (d : Database) :
  state_after (run e d (app.main.fmap_M f m)) = state_after (run e d m).
Proof.
  unfold app.main.fmap_M, run, state_after, bind_M, ret.
  destruct (m (SessionLocal e d)) as [[a|err] s]; reflexivity.
Qed.




Section PointStatuses.

Variables (e : postgis.engine) (p : process) (d : Database) (request : app.main.Request).

Hypothesis Hvalid : presents_valid_bearer_token p d request = true.
Hypothesis Htyped : well_typed d = true.








End PointStatuses.

Section PolygonStatuses.

Variables (e : postgis.engine) (p : process) (d : Database) (request : app.main.Request).

Hypothesis Hvalid : presents_valid_bearer_token p d request = true.
Hypothesis Htyped : well_typed d = true.








End PolygonStatuses.

Section QueryStatuses.

Variables (e : postgis.engine) (p : process) (d : Database) (request : app.main.Request).

Hypothesis Hvalid : presents_valid_bearer_token p d request = true.
Hypothesis Htyped : well_typed d = true.




Lemma list_points_refused (skip limit : option Z) :
  ((0 <=? default 0 skip)%Z && (0 <=? default 100 limit)%Z) = false ->
  exists msg,
    run e d (app.main.list_points p request skip limit)
    = (Raise (DataError msg), d, [SELECT users; SELECT points]).
Proof using Hvalid.
  intros Hnegative.
  destruct (get_current_user_accepts e p d request Hvalid) as (user & Hgate).
  unfold run, app.main.list_points.
  rewrite (bind_M_ok _ _ _ _ _ Hgate).
  unfold app.crud.get_points, offset_limit. unfold_session_code.
  cbn [bind store pending log app].
  destruct (Z.ltb_spec (default 0%Z skip) 0) as [_|Hskip]; [eexists; reflexivity|].
  destruct (Z.ltb_spec (default 100%Z limit) 0) as [_|Hlimit]; [eexists; reflexivity|].
  apply andb_false_iff in Hnegative as [H|H]; apply Z.leb_gt in H; lia.
Qed.

Lemma list_polygons_refused (skip limit : option Z) :
  ((0 <=? default 0 skip)%Z && (0 <=? default 100 limit)%Z) = false ->
  exists msg,
    run e d (app.main.list_polygons p request skip limit)
    = (Raise (DataError msg), d, [SELECT users; SELECT polygons]).
Proof using Hvalid.
  intros Hnegative.
  destruct (get_current_user_accepts e p d request Hvalid) as (user & Hgate).
  unfold run, app.main.list_polygons.
  rewrite (bind_M_ok _ _ _ _ _ Hgate).
  unfold app.crud.get_polygons, offset_limit. unfold_session_code.
  cbn [bind store pending log app].
  destruct (Z.ltb_spec (default 0%Z skip) 0) as [_|Hskip]; [eexists; reflexivity|].
  destruct (Z.ltb_spec (default 100%Z limit) 0) as [_|Hlimit]; [eexists; reflexivity|].
  apply andb_false_iff in Hnegative as [H|H]; apply Z.leb_gt in H; lia.
Qed.

End QueryStatuses.


(** X19: skip and limit reach the database unchecked.  With a valid
    token, a list operation given a negative skip or limit (after the
    defaults 0 and 100) is refused by the database: the client is answered
    500, the state is as before and the refused SELECT is the only
    statement sent after that of the current user. *)
Theorem X19_negative_paging_is_answered_500
  (e : postgis.engine) (p : process) (d : Database) (request : app.main.Request)
  (op : app.main.operation) :
  presents_valid_bearer_token p d request = true ->
  non_negative_paging op = false ->
  app.main.status_code (outcome (run e d (app.main.route p request op))) = 500%Z
  /\ state_after (run e d (app.main.route p request op)) = d.
Proof.
  intros Hvalid Hpaging.
  destruct op; try discriminate Hpaging; cbn [non_negative_paging] in Hpaging;
    unfold app.main.route; rewrite status_fmap, state_fmap.
  - destruct (list_points_refused e p d request Hvalid skip limit Hpaging) as (msg & ->).
    split; reflexivity.
  - destruct (list_polygons_refused e p d request Hvalid skip limit Hpaging) as (msg & ->).
    split; reflexivity.
Qed.



(** GET /points/?skip=-1 with the token of the test suite. *)
Lemma X19_negative_paging_is_answered_500_witness :
  presents_valid_bearer_token scenario.unconfigured scenario.one_degree_east
    scenario.bearer = true
  /\ non_negative_paging (app.main.ListPoints (Some (-1)%Z) None) = false
  /\ app.main.status_code
       (outcome (run scenario.flat scenario.one_degree_east
                   (app.main.route scenario.unconfigured scenario.bearer
                      (app.main.ListPoints (Some (-1)%Z) None))))
     = 500%Z
  /\ state_after (run scenario.flat scenario.one_degree_east
                    (app.main.route scenario.unconfigured scenario.bearer
                       (app.main.ListPoints (Some (-1)%Z) None)))
     = scenario.one_degree_east.
Proof.
  split; [reflexivity|]. split; [reflexivity|].
  apply (X19_negative_paging_is_answered_500 scenario.flat scenario.unconfigured
           scenario.one_degree_east scenario.bearer
           (app.main.ListPoints (Some (-1)%Z) None)); reflexivity.
Defined.

(** ** The two surfaces side by side *)

Lemma point_to_dict_as_point (r : SpatialPoint) :
  graphql_app.schema.point_to_dict r = as_point (point_out r).
Proof. reflexivity. Qed.

Lemma polygon_to_dict_as_polygon (r : SpatialPolygon) :
  graphql_app.schema.polygon_to_dict r = as_polygon (polygon_out r).
Proof. reflexivity. Qed.





(** ** Written on the graph surface, read on both *)







